(** * FastapiCloud web client: session store, API client and navigation guard

    A shallow embedding of the TypeScript sources

    - [utils/request.ts]  the axios instance, its two interceptors and the
                          four verbs of [apiClient];
    - [utils/types.ts]    [BaseResponse], [LoginResponse];
    - [api/user.ts]       [login], [logout], [isAuthenticated];
    - the router module   the [beforeEach] guard.

    The browser is a record [World]: [localStorage] is a finite map from
    keys to strings, assignments to [window.location.href] and calls of
    [console.error] are logged in order, and every request handed to the
    network is logged on [wire].  An [async] function is a state-passing
    computation that ends [Fulfilled] or [Rejected]; the server and the
    network are a stub [transport] that answers each outgoing request.

    Response bodies have the declared type [BaseResponse<T>]; the fields
    the code guards with [||] and [&&] may be empty or missing: a missing
    [msg] is the empty string (both are falsy), a [null] payload and a
    missing [access_token] are [None].  An answer the client rejects has
    no declared type: its body is an envelope or [null], and reading
    [msg] off [null] throws. *)

From Stdlib Require Import Ascii.
From stdpp Require Import gmap strings pretty list.

Set Default Proof Using "Type".
Open Scope Z_scope.

(** ** JavaScript values *)

(** Truthiness of a [string | null] (or of an optional string field):
    [null], [undefined] and the empty string are falsy. *)
Definition truthy (v : option string) : bool :=
  match v with
  | None => false
  | Some s => negb (String.eqb s "")
  end.

(** [a || b] on strings. *)
Definition or_else (a b : string) : string :=
  if String.eqb a "" then b else a.

(** Truthiness of an optional boolean ([to.meta.requiresAuth]). *)
Definition truthy_flag (v : option bool) : bool :=
  match v with
  | Some true => true
  | _ => false
  end.

(** [new Error(message)]. *)
Record JsError := Error { message : string }.

(** How a promise settles. *)
Inductive Settled (A : Type) :=
  | Fulfilled (value : A)
  | Rejected (reason : JsError).
Arguments Fulfilled {A} value.
Arguments Rejected {A} reason.

(** ** Requests *)

Inductive Method := GET | POST | PUT | DELETE.

(** The request bodies the callers pass: nothing, a [URLSearchParams] or a
    plain object (kept as its JSON text). *)
Inductive ReqData :=
  | Undefined
  | URLSearchParams (entries : list (string * string))
  | PlainObject (json : string).

(** The optional [config?: AxiosRequestConfig] of a verb. *)
Record AxiosRequestConfig := {
  headers : gmap string string;
  params : list (string * string)
}.

(** The merged configuration that travels through the interceptors. *)
Record InternalConfig := {
  cfg_method : Method;
  cfg_baseURL : string;
  cfg_url : string;
  cfg_timeout : Z;
  cfg_headers : gmap string string;
  cfg_params : list (string * string);
  cfg_data : ReqData
}.

(** ** Responses ([utils/types.ts]) *)

Record BaseResponse (T : Type) := {
  code : Z;
  msg : string;
  data : T
}.
Arguments code {T} _.
Arguments msg {T} _.
Arguments data {T} _.

Record LoginResponse := {
  access_token : option string;
  token_type : string;
  expires_in : Z
}.

Record LoginRequest := {
  username : string;
  password : string
}.

Record AxiosResponse (T : Type) := {
  status : Z;
  body : BaseResponse T
}.
Arguments status {T} _.
Arguments body {T} _.

(** [error.response] as the rejected branch of the response interceptor
    sees it: untyped in the source, its [data] is an envelope or [null]
    (here [None]). *)
Record ErrorResponse (T : Type) := {
  error_status : Z;
  error_data : option (BaseResponse T)
}.
Arguments error_status {T} _.
Arguments error_data {T} _.

(** What the rejected branch of the response interceptor inspects:
    [error.response], [error.request] and [error.message]. *)
Record AxiosError (T : Type) := {
  response : option (ErrorResponse T);
  request : bool;
  error_message : string
}.
Arguments response {T} _.
Arguments request {T} _.
Arguments error_message {T} _.

(** axios' default [validateStatus]. *)
Definition validateStatus (status : Z) : bool :=
  (200 <=? status) && (status <? 300).

(** What the network stub does with an outgoing request: it answers with a
    status and an envelope; it answers with a status outside 2xx and the
    body [null]; it never answers (connection lost, deadline passed); or
    the request cannot be set up and nothing is sent.  (A 2xx answer is
    typed [AxiosResponse<BaseResponse<T>>] in the source, so it always
    carries an envelope.) *)
Inductive Outcome (T : Type) :=
  | Responded (resp : AxiosResponse T)
  | RespondedNull (status : Z) (outside : validateStatus status = false)
  | NoResponse (why : string)
  | SetupFailure (why : string).
Arguments Responded {T} resp.
Arguments RespondedNull {T} status outside.
Arguments NoResponse {T} why.
Arguments SetupFailure {T} why.

(** The error axios builds for an outcome that is not a 2xx answer. *)
Definition error_of {T} (o : Outcome T) : AxiosError T :=
  match o with
  | Responded r =>
      {| response := Some {| error_status := status r;
                             error_data := Some (body r) |};
         request := true;
         error_message := "Request failed with status code "
                          +:+ pretty (status r) |}
  | RespondedNull s _ =>
      {| response := Some {| error_status := s; error_data := None |};
         request := true;
         error_message := "Request failed with status code " +:+ pretty s |}
  | NoResponse why =>
      {| response := None; request := true; error_message := why |}
  | SetupFailure why =>
      {| response := None; request := false; error_message := why |}
  end.

(** The [TypeError] of reading [msg] off [null]. *)
Definition TypeError_null_msg : JsError :=
  Error "Cannot read properties of null (reading 'msg')".

(** ** The browser *)

Record World := {
  localStorage : gmap string string;
  location_log : list string;
  console : list string;
  wire : list InternalConfig
}.

(** An [async] computation. *)
Definition IO (A : Type) : Type := World → Settled A * World.

Definition ret {A} (a : A) : IO A := λ w, (Fulfilled a, w).
Definition reject {A} (e : JsError) : IO A := λ w, (Rejected e, w).
Definition bind {A B} (m : IO A) (k : A → IO B) : IO B :=
  λ w, match m w with
       | (Fulfilled a, w') => k a w'
       | (Rejected e, w') => (Rejected e, w')
       end.

Notation "x ⇐ m ; k" := (bind m (λ x, k))
  (at level 100, m at next level, right associativity, only parsing).
Notation "m ;; k" := (bind m (λ _, k))
  (at level 100, right associativity, only parsing).

(** [try { body } finally { fin }]: [fin] runs however [body] settles. *)
Definition try_finally {A} (body : IO A) (fin : IO unit) : IO A :=
  λ w, match body w with
       | (r, w1) =>
           match fin w1 with
           | (Fulfilled _, w2) => (r, w2)
           | (Rejected e, w2) => (Rejected e, w2)
           end
       end.

Definition getItem (key : string) (w : World) : option string :=
  localStorage w !! key.

Definition setItem (key value : string) : IO unit :=
  λ w, (Fulfilled tt,
        {| localStorage := <[key := value]> (localStorage w);
           location_log := location_log w;
           console := console w;
           wire := wire w |}).

Definition removeItem (key : string) : IO unit :=
  λ w, (Fulfilled tt,
        {| localStorage := delete key (localStorage w);
           location_log := location_log w;
           console := console w;
           wire := wire w |}).

(** [window.location.href = url]. *)
Definition assign_href (url : string) : IO unit :=
  λ w, (Fulfilled tt,
        {| localStorage := localStorage w;
           location_log := location_log w ++ [url];
           console := console w;
           wire := wire w |}).

(** [console.error(label, text)]. *)
Definition console_error (label text : string) : IO unit :=
  λ w, (Fulfilled tt,
        {| localStorage := localStorage w;
           location_log := location_log w;
           console := console w ++ [label +:+ " " +:+ text];
           wire := wire w |}).

Definition transmit (cfg : InternalConfig) (w : World) : World :=
  {| localStorage := localStorage w;
     location_log := location_log w;
     console := console w;
     wire := wire w ++ [cfg] |}.

(** ** The axios instance and [apiClient] ([utils/request.ts]) *)

Section ApiClient.

(** [import.meta.env.VITE_API_BASE_PATH], the payload type [T] of the
    endpoint and the network stub. *)
Variable VITE_API_BASE_PATH : option string.
Variable T : Type.
Variable transport : InternalConfig → Outcome T.

(** [axios.create({ baseURL, timeout, headers })]. *)
Definition baseURL : string :=
  if truthy VITE_API_BASE_PATH
  then default "" VITE_API_BASE_PATH
  else "http://localhost:8000/api".

Definition default_headers : gmap string string :=
  {[ "Content-Type" := "application/json" ]}.

(** The configuration of one call: the instance defaults, overridden by
    the caller's [config], with the verb's method, url and data. *)
Definition merge_config (m : Method) (url : string) (d : ReqData)
    (config : option AxiosRequestConfig) : InternalConfig :=
  {| cfg_method := m;
     cfg_baseURL := baseURL;
     cfg_url := url;
     cfg_timeout := 10000;
     cfg_headers := match config with
                    | Some c => headers c ∪ default_headers
                    | None => default_headers
                    end;
     cfg_params := match config with
                   | Some c => params c
                   | None => []
                   end;
     cfg_data := d |}.

(** [config.headers.Authorization = value]. *)
Definition set_Authorization (value : string) (config : InternalConfig)
    : InternalConfig :=
  {| cfg_method := cfg_method config;
     cfg_baseURL := cfg_baseURL config;
     cfg_url := cfg_url config;
     cfg_timeout := cfg_timeout config;
     cfg_headers := <["Authorization" := value]> (cfg_headers config);
     cfg_params := cfg_params config;
     cfg_data := cfg_data config |}.

(** Request interceptor, fulfilled branch. *)
Definition request_interceptor (config : InternalConfig) : IO InternalConfig :=
  λ w,
    let token := getItem "token" w in
    if truthy token
    then ret (set_Authorization ("Bearer " +:+ default "" token) config) w
    else ret config w.

(** Request interceptor, rejected branch. *)
Definition request_interceptor_error (error : JsError) : IO InternalConfig :=
  reject error.

(** Response interceptor, fulfilled branch. *)
Definition response_interceptor (response : AxiosResponse T)
    : IO (AxiosResponse T) :=
  ret response.

(** [data.msg]: a property read, which throws when [data] is [null]. *)
Definition read_msg (data : option (BaseResponse T)) : IO string :=
  match data with
  | Some envelope => ret (msg envelope)
  | None => reject TypeError_null_msg
  end.

(** Response interceptor, rejected branch.  ([errorMessage] starts as
    "请求失败，请稍后重试" in the source and is assigned anew on every
    path; each [case] reads [data.msg] before anything else.) *)
Definition response_interceptor_error (error : AxiosError T)
    : IO (AxiosResponse T) :=
  errorMessage ⇐
    match response error with
    | Some r =>
        let status := error_status r in
        let data := error_data r in
        match status with
        | 400 => m ⇐ read_msg data; ret (or_else m "请求参数错误")
        | 401 =>
            m ⇐ read_msg data;
            removeItem "token";;
            assign_href "/login";;
            ret (or_else m "未授权，请重新登录")
        | 403 => m ⇐ read_msg data; ret (or_else m "没有权限访问该资源")
        | 404 => m ⇐ read_msg data; ret (or_else m "请求的资源不存在")
        | 500 => m ⇐ read_msg data; ret (or_else m "服务器内部错误")
        | _ => m ⇐ read_msg data;
               ret (or_else m ("请求失败 (" +:+ pretty status +:+ ")"))
        end
    | None =>
        if request error
        then ret "网络错误，请检查网络连接"
        else ret (error_message error)
    end;
  console_error "API Error:" errorMessage;;
  reject (Error errorMessage).

(** The adapter: hand the request to the network and settle the promise
    the way axios does. *)
Definition dispatch (config : InternalConfig)
    : World → (AxiosResponse T + AxiosError T) * World :=
  λ w,
    match transport config with
    | Responded r =>
        if validateStatus (status r)
        then (inl r, transmit config w)
        else (inr (error_of (Responded r)), transmit config w)
    | RespondedNull s outside =>
        (inr (error_of (RespondedNull s outside)), transmit config w)
    | NoResponse why => (inr (error_of (NoResponse why)), transmit config w)
    | SetupFailure why => (inr (error_of (SetupFailure why)), w)
    end.

(** [axiosInstance.request]: request interceptor, adapter, response
    interceptor. *)
Definition axiosInstance_request (config : InternalConfig)
    : IO (AxiosResponse T) :=
  sent ⇐ request_interceptor config;
  λ w,
    match dispatch sent w with
    | (inl r, w') => response_interceptor r w'
    | (inr e, w') => response_interceptor_error e w'
    end.

Definition axiosInstance_get url config :=
  axiosInstance_request (merge_config GET url Undefined config).
Definition axiosInstance_post url data config :=
  axiosInstance_request (merge_config POST url data config).
Definition axiosInstance_put url data config :=
  axiosInstance_request (merge_config PUT url data config).
Definition axiosInstance_delete url config :=
  axiosInstance_request (merge_config DELETE url Undefined config).

(** The exported [apiClient]. *)
Definition apiClient_get (url : string) (config : option AxiosRequestConfig)
    : IO (BaseResponse T) :=
  response ⇐ axiosInstance_get url config;
  ret (body response).

Definition apiClient_post (url : string) (data : ReqData)
    (config : option AxiosRequestConfig) : IO (BaseResponse T) :=
  response ⇐ axiosInstance_post url data config;
  ret (body response).

Definition apiClient_put (url : string) (data : ReqData)
    (config : option AxiosRequestConfig) : IO (BaseResponse T) :=
  response ⇐ axiosInstance_put url data config;
  ret (body response).

Definition apiClient_delete (url : string)
    (config : option AxiosRequestConfig) : IO (BaseResponse T) :=
  response ⇐ axiosInstance_delete url config;
  ret (body response).

(** One call of one verb, as a caller writes it. *)
Inductive Call :=
  | Get (url : string) (config : option AxiosRequestConfig)
  | Post (url : string) (data : ReqData) (config : option AxiosRequestConfig)
  | Put (url : string) (data : ReqData) (config : option AxiosRequestConfig)
  | Delete (url : string) (config : option AxiosRequestConfig).

Definition apiClient (c : Call) : IO (BaseResponse T) :=
  match c with
  | Get url config => apiClient_get url config
  | Post url data config => apiClient_post url data config
  | Put url data config => apiClient_put url data config
  | Delete url config => apiClient_delete url config
  end.

(** The configuration of a call before the interceptors run, and the
    request that leaves the request interceptor in world [w]. *)
Definition call_config (c : Call) : InternalConfig :=
  match c with
  | Get url config => merge_config GET url Undefined config
  | Post url data config => merge_config POST url data config
  | Put url data config => merge_config PUT url data config
  | Delete url config => merge_config DELETE url Undefined config
  end.

Definition outgoing (c : Call) (w : World) : InternalConfig :=
  let token := getItem "token" w in
  if truthy token
  then set_Authorization ("Bearer " +:+ default "" token) (call_config c)
  else call_config c.

End ApiClient.


(** ** The user API ([api/user.ts]) *)

Section UserApi.

Variable VITE_API_BASE_PATH : option string.

(** [login]: post the form, store the token when the payload has one, and
    resolve with the envelope.  ([form] is the source's [params] and
    [envelope] its [data], renamed apart from the record fields.) *)
Definition login
    (transport : InternalConfig → Outcome (option LoginResponse))
    (form : LoginRequest) : IO (BaseResponse (option LoginResponse)) :=
  envelope ⇐ apiClient_post VITE_API_BASE_PATH _ transport "/login"
               (URLSearchParams [("username", username form);
                                 ("password", password form)])
               (Some {| headers :=
                          {[ "Content-Type" :=
                               "application/x-www-form-urlencoded" ]};
                        params := [] |});
  match data envelope with
  | Some payload =>
      if truthy (access_token payload)
      then setItem "token" (default "" (access_token payload))
      else ret tt
  | None => ret tt
  end;;
  ret envelope.

(** [logout]: the token is removed in the [finally] block. *)
Definition logout {T : Type} (transport : InternalConfig → Outcome T)
    : IO (BaseResponse T) :=
  try_finally
    (envelope ⇐ apiClient_post VITE_API_BASE_PATH _ transport "/logout"
                  Undefined None;
     ret envelope)
    (removeItem "token").

End UserApi.

(** [isAuthenticated]: [localStorage.getItem('token') !== null]. *)
Definition isAuthenticated (w : World) : bool :=
  match getItem "token" w with
  | Some _ => true
  | None => false
  end.

(** ** The navigation guard ([router/index.ts]) *)

Record RouteMeta := {
  requiresAuth : option bool
}.

(** The target of a navigation, with the [meta] of its matched records
    merged. *)
Record RouteLocation := {
  path : string;
  meta : RouteMeta
}.

(** What the guard passes to [next]: nothing, or a named location. *)
Inductive Next :=
  | next
  | next_name (name : string).

Definition beforeEach (to _from : RouteLocation) (w : World) : Next :=
  let isAuthenticated := truthy (getItem "token" w) in
  if truthy_flag (requiresAuth (meta to)) && negb isAuthenticated
  then next_name "login"
  else if String.eqb (path to) "/login" && isAuthenticated
  then next_name "dashboard"
  else next.

(** The locations the declared routes resolve to. *)
Definition route_login : RouteLocation :=
  {| path := "/login"; meta := {| requiresAuth := Some false |} |}.
Definition route_dashboard : RouteLocation :=
  {| path := "/dashboard"; meta := {| requiresAuth := Some true |} |}.
Definition route_users : RouteLocation :=
  {| path := "/users"; meta := {| requiresAuth := Some true |} |}.

(** How the router matches a path against a route declared with a static
    path.  The router is created without [strict] and without
    [sensitive], so the case of ASCII letters is ignored and one trailing
    slash is allowed; [to.path] keeps the spelling of the navigation. *)
Definition lower_ascii (c : Ascii.ascii) : Ascii.ascii :=
  let n := Ascii.nat_of_ascii c in
  if (65 <=? n)%nat && (n <=? 90)%nat
  then Ascii.ascii_of_nat (n + 32)
  else c.

Fixpoint lower (s : string) : string :=
  match s with
  | "" => ""
  | String c rest => String (lower_ascii c) (lower rest)
  end.

Definition resolves_to (declared p : string) : bool :=
  String.eqb (lower p) (lower declared)
  || String.eqb (lower p) (lower declared +:+ "/").

(** ** The failure taxonomy *)

Inductive Cause :=
  | BadRequest
  | Unauthorized
  | Forbidden
  | NotFound
  | ServerError
  | NetworkError
  | ConfigError.

(** The cause the rejected branch of the response interceptor assigns: the
    branch of its [if]/[switch] that the error takes, under the taxonomy's
    name for it.  The [default] branch has no name in the taxonomy. *)
Definition cause_of {T} (error : AxiosError T) : option Cause :=
  match response error with
  | Some r =>
      match error_status r with
      | 400 => Some BadRequest
      | 401 => Some Unauthorized
      | 403 => Some Forbidden
      | 404 => Some NotFound
      | 500 => Some ServerError
      | _ => None
      end
  | None => if request error then Some NetworkError else Some ConfigError
  end.

(** The text each branch falls back on. *)
Definition fallback_text {T} (error : AxiosError T) : string :=
  match cause_of error with
  | Some BadRequest => "请求参数错误"
  | Some Unauthorized => "未授权，请重新登录"
  | Some Forbidden => "没有权限访问该资源"
  | Some NotFound => "请求的资源不存在"
  | Some ServerError => "服务器内部错误"
  | Some NetworkError => "网络错误，请检查网络连接"
  | Some ConfigError => error_message error
  | None =>
      match response error with
      | Some r => "请求失败 (" +:+ pretty (error_status r) +:+ ")"
      | None => "请求失败，请稍后重试"
      end
  end.

(** Whether the handler throws on its way: the error has a response whose
    body is [null]. *)
Definition throws {T} (error : AxiosError T) : bool :=
  match response error with
  | Some r => bool_decide (error_data r = None)
  | None => false
  end.

(** The text of the [Error] the handler raises when it does not throw. *)
Definition raised_text {T} (error : AxiosError T) : string :=
  match response error with
  | Some r =>
      match error_data r with
      | Some envelope => or_else (msg envelope) (fallback_text error)
      | None => fallback_text error
      end
  | None => fallback_text error
  end.

(** What the handler rejects with. *)
Definition raised {T} (error : AxiosError T) : JsError :=
  if throws error then TypeError_null_msg else Error (raised_text error).

(** The taxonomy as the specification words it: the four named 4xx
    statuses, every 5xx status, a missing response, an error before
    dispatch.  It says nothing of the other statuses. *)
Definition spec_cause {T} (error : AxiosError T) : option Cause :=
  match response error with
  | Some r =>
      let s := error_status r in
      if s =? 400 then Some BadRequest
      else if s =? 401 then Some Unauthorized
      else if s =? 403 then Some Forbidden
      else if s =? 404 then Some NotFound
      else if (500 <=? s) && (s <=? 599) then Some ServerError
      else None
  | None => if request error then Some NetworkError else Some ConfigError
  end.

(** An outcome the client treats as a failure. *)
Definition failed {T} (o : Outcome T) : bool :=
  match o with
  | Responded r => negb (validateStatus (status r))
  | _ => true
  end.

(** An answer whose body is [null]. *)
Definition null_body {T} (o : Outcome T) : bool :=
  match o with
  | RespondedNull _ _ => true
  | _ => false
  end.

(** Whether the error has status 401. *)
Definition unauthorized {T} (error : AxiosError T) : bool :=
  match response error with
  | Some r => error_status r =? 401
  | None => false
  end.

(** Whether the handler gets to clear the session: the 401 branch, with a
    body it can read. *)
Definition clears_session {T} (error : AxiosError T) : bool :=
  unauthorized error && negb (throws error).

(** The world the handler leaves behind.  When it throws, nothing has
    happened yet.  Otherwise: the console line always, the token removed
    and the login page requested on the 401 branch only. *)
Definition handled {T} (error : AxiosError T) (w : World) : World :=
  if throws error then w
  else
    {| localStorage :=
         if unauthorized error
         then delete "token" (localStorage w)
         else localStorage w;
       location_log :=
         if unauthorized error
         then location_log w ++ ["/login"]
         else location_log w;
       console := console w ++ ["API Error: " +:+ raised_text error];
       wire := wire w |}.

(** The world once the adapter has run: the request is on the wire
    unless it could not be set up. *)
Definition dispatched {T} (o : Outcome T) (config : InternalConfig)
    (w : World) : World :=
  match o with
  | SetupFailure _ => w
  | _ => transmit config w
  end.

(** The [config] argument of a call, and the [Authorization] header the
    caller put in it, if any. *)
Definition caller_config (c : Call) : option AxiosRequestConfig :=
  match c with
  | Get _ config => config
  | Post _ _ config => config
  | Put _ _ config => config
  | Delete _ config => config
  end.

Definition caller_Authorization (c : Call) : option string :=
  match caller_config c with
  | Some config => headers config !! "Authorization"
  | None => None
  end.

(** The requests a call adds to the wire. *)
Definition transmitted {T} (o : Outcome T) (config : InternalConfig)
    : list InternalConfig :=
  match o with
  | SetupFailure _ => []
  | _ => [config]
  end.

(** The call [login] makes. *)
Definition login_call (form : LoginRequest) : Call :=
  Post "/login"
    (URLSearchParams [("username", username form);
                      ("password", password form)])
    (Some {| headers :=
               {[ "Content-Type" := "application/x-www-form-urlencoded" ]};
             params := [] |}).

(** Sample worlds and stubs. *)
Definition empty_world : World :=
  {| localStorage := ∅; location_log := []; console := []; wire := [] |}.

Definition signed_in (token : string) : World :=
  {| localStorage := {[ "token" := token ]};
     location_log := []; console := []; wire := [] |}.

Definition answer {T} (s : Z) (b : BaseResponse T)
    : InternalConfig → Outcome T :=
  λ _, Responded {| status := s; body := b |}.

(** ** The rest of the user API ([api/user.ts])

    From here on the embedding also covers the callers of the client:
    the remaining functions of [api/user.ts], the route table, the
    breadcrumb of the header, and the handlers and validators of the
    views.  A string is compared, split at an ASCII character and
    concatenated as it stands; where the code measures one, its [length]
    is the parameter [js_length], and [atob] and [JSON.parse] are
    parameters that return or throw. *)

(** [try { body } catch (error) { handler }]. *)
Definition try_catch {A} (body : IO A) (handler : JsError → IO A) : IO A :=
  λ w, match body w with
       | (Fulfilled a, w') => (Fulfilled a, w')
       | (Rejected e, w') => handler e w'
       end.

(** [UserForm], the body of a create or update request. *)
Record UserForm := {
  form_username : string;
  form_password : option string;
  form_name : string;
  form_status : bool;
  form_description : option string
}.

(** [UserQuery]. *)
Record UserQuery := {
  query_page : option Z;
  query_size : option Z;
  query_name : option string
}.

(** The query string entries of [{ params }]: the fields that are
    defined, in the order the interface declares them. *)
Definition query_params (q : option UserQuery) : list (string * string) :=
  match q with
  | None => []
  | Some q =>
      match query_page q with Some p => [("page", pretty p)] | None => [] end
      ++ match query_size q with Some s => [("size", pretty s)] | None => [] end
      ++ match query_name q with Some n => [("name", n)] | None => [] end
  end.

Section UserCrud.

Variable VITE_API_BASE_PATH : option string.
Variable T : Type.
Variable transport : InternalConfig → Outcome T.

(** How a [UserForm] is written as JSON text. *)
Variable JSON_stringify : UserForm → string.

Definition getUserList (q : option UserQuery) : IO (BaseResponse T) :=
  apiClient_get VITE_API_BASE_PATH T transport "/users"
    (Some {| headers := ∅; params := query_params q |}).

Definition createUser (userData : UserForm) : IO (BaseResponse T) :=
  apiClient_post VITE_API_BASE_PATH T transport "/user"
    (PlainObject (JSON_stringify userData)) None.

Definition getUserDetail (userId : Z) : IO (BaseResponse T) :=
  apiClient_get VITE_API_BASE_PATH T transport ("/user/" +:+ pretty userId) None.

Definition updateUser (userId : Z) (userData : UserForm)
    : IO (BaseResponse T) :=
  apiClient_put VITE_API_BASE_PATH T transport ("/user/" +:+ pretty userId)
    (PlainObject (JSON_stringify userData)) None.

Definition deleteUser (userId : Z) : IO (BaseResponse T) :=
  apiClient_delete VITE_API_BASE_PATH T transport
    ("/user/" +:+ pretty userId) None.

End UserCrud.

(** *** [parseJWT] and [getCurrentUser] *)

(** [s.split(sep)] for a one-character separator. *)
Fixpoint split_on (sep : Ascii.ascii) (s : string) : list string :=
  match s with
  | "" => [""]
  | String c rest =>
      if Ascii.eqb c sep
      then "" :: split_on sep rest
      else match split_on sep rest with
           | head :: tail => String c head :: tail
           | [] => [String c ""]
           end
  end.

(** [s.replace(/a/g, b)] for single characters. *)
Fixpoint replace_all (a b : Ascii.ascii) (s : string) : string :=
  match s with
  | "" => ""
  | String c rest =>
      String (if Ascii.eqb c a then b else c) (replace_all a b rest)
  end.

(** ['='.repeat(n)]. *)
Fixpoint repeat_equals (n : nat) : string :=
  match n with
  | O => ""
  | S n => String "="%char (repeat_equals n)
  end.

(** The number of times a character occurs in a string. *)
Fixpoint occurrences (c : Ascii.ascii) (s : string) : nat :=
  match s with
  | "" => 0
  | String d rest => (if Ascii.eqb d c then 1 else 0) + occurrences c rest
  end.

Section CurrentUser.

Variable VITE_API_BASE_PATH : option string.

(** The values [JSON.parse] produces and their truthiness; [atob] and
    [JSON.parse] themselves, which either return or throw; the [length] of
    a string. *)
Variable J : Type.
Variable js_truthy : J → bool.
Variable atob : string → Settled string.
Variable JSON_parse : string → Settled J.
Variable js_length : string → nat.

Variable transport : InternalConfig → Outcome (option J).

(** The text [decodeBase64Url] hands to [atob]: base64url characters
    replaced and the padding added. *)
Definition to_base64 (str : string) : string :=
  let base64 := replace_all "_"%char "/"%char (replace_all "-"%char "+"%char str) in
  let padding := repeat_equals ((4 - js_length base64 `mod` 4) `mod` 4) in
  base64 +:+ padding.

Definition decodeBase64Url (str : string) : Settled string :=
  atob (to_base64 str).

(** [parseJWT]: [null] (here [None]) with a line on the console for
    whatever goes wrong inside the [try]. *)
Definition parseJWT (token : string) : IO (option J) :=
  let attempt : Settled J :=
    match split_on "."%char token with
    | [_; part; _] =>
        if truthy (Some part)
        then match decodeBase64Url part with
             | Fulfilled payload => JSON_parse payload
             | Rejected e => Rejected e
             end
        else Rejected (Error "Invalid token format")
    | _ => Rejected (Error "Invalid token format")
    end in
  match attempt with
  | Fulfilled parsed => ret (Some parsed)
  | Rejected error =>
      console_error "Failed to parse JWT:" (message error);;
      ret None
  end.

Definition getCurrentUser : IO (BaseResponse (option J)) :=
  λ w,
    let token := getItem "token" w in
    if truthy token
    then
      (userData ⇐ parseJWT (default "" token);
       let usable :=
         match userData with
         | Some parsed => if js_truthy parsed then Some parsed else None
         | None => None
         end in
       match usable with
       | Some parsed =>
           ret {| code := 0; msg := "Success"; data := Some parsed |}
       | None =>
           try_catch
             (apiClient_get VITE_API_BASE_PATH _ transport
                "/user/profile" None)
             (λ error,
                console_error "Failed to get user profile:" (message error);;
                ret {| code := 1; msg := "Failed to get user profile";
                       data := None |})
       end) w
    else ret {| code := 1; msg := "No token found"; data := None |} w.

End CurrentUser.

(** ** The route table and the breadcrumb *)

(** A route record as the table writes it; [record_requiresAuth],
    [record_title] and [record_icon] are the entries of its [meta]. *)
Record RouteRecord := {
  record_path : string;
  record_name : option string;
  record_redirect : option string;
  record_requiresAuth : option bool;
  record_title : option string;
  record_icon : option string
}.

Definition record_root_redirect : RouteRecord :=
  {| record_path := "/"; record_name := None;
     record_redirect := Some "/login"; record_requiresAuth := None;
     record_title := None; record_icon := None |}.
Definition record_layout : RouteRecord :=
  {| record_path := "/"; record_name := Some "layout";
     record_redirect := None; record_requiresAuth := Some true;
     record_title := None; record_icon := None |}.
Definition record_dashboard : RouteRecord :=
  {| record_path := "/dashboard"; record_name := Some "dashboard";
     record_redirect := None; record_requiresAuth := None;
     record_title := None; record_icon := Some "HomeFilled" |}.
Definition record_users : RouteRecord :=
  {| record_path := "/users"; record_name := Some "users";
     record_redirect := None; record_requiresAuth := None;
     record_title := None; record_icon := Some "User" |}.
Definition record_user_detail : RouteRecord :=
  {| record_path := "/users/:id"; record_name := Some "user-detail";
     record_redirect := None; record_requiresAuth := None;
     record_title := Some "用户详情"; record_icon := None |}.
Definition record_login : RouteRecord :=
  {| record_path := "/login"; record_name := Some "login";
     record_redirect := None; record_requiresAuth := Some false;
     record_title := None; record_icon := None |}.

(** [routes]: each top-level record with its [children]. *)
Definition routes : list (RouteRecord * list RouteRecord) :=
  [ (record_root_redirect, []);
    (record_layout, [record_dashboard; record_users; record_user_detail]);
    (record_login, []) ].

(** The records a route name matches, outermost first. *)
Fixpoint matched_in (table : list (RouteRecord * list RouteRecord))
    (name : string) : option (list RouteRecord) :=
  let named (r : RouteRecord) := bool_decide (record_name r = Some name) in
  match table with
  | [] => None
  | (top, children) :: rest =>
      if named top then Some [top]
      else match List.find named children with
           | Some child => Some [top; child]
           | None => matched_in rest name
           end
  end.

Definition matched_by_name (name : string) : option (list RouteRecord) :=
  matched_in routes name.

(** [to.meta.requiresAuth]: the [meta] of the matched records merged,
    inner records overriding outer ones. *)
Definition merged_requiresAuth (matched : list RouteRecord) : option bool :=
  fold_left
    (λ acc r, match record_requiresAuth r with
              | Some b => Some b
              | None => acc
              end)
    matched None.

(** The location a navigation to path [p] has when it matches [matched]. *)
Definition location_of (p : string) (matched : list RouteRecord)
    : RouteLocation :=
  {| path := p; meta := {| requiresAuth := merged_requiresAuth matched |} |}.

(** The location of a named route without parameters. *)
Definition resolve_name (name : string) : option RouteLocation :=
  matched ← matched_by_name name;
  innermost ← last matched;
  Some (location_of (record_path innermost) matched).

(** One entry of the breadcrumb. *)
Record BreadcrumbItem := {
  item_path : string;
  item_title : string
}.

(** The [switch] on [record.path] that picks the title. *)
Definition breadcrumb_title (record : RouteRecord) : string :=
  if String.eqb (record_path record) "/dashboard" then "仪表盘"
  else if String.eqb (record_path record) "/users" then "用户管理"
  else if String.eqb (record_path record) "/users/:id" then "用户详情"
  else or_else (default "" (record_title record))
         (or_else (default "" (record_name record)) "未知").

(** [breadcrumbItems], computed from [route.matched]. *)
Definition breadcrumbItems (matched : list RouteRecord)
    : list BreadcrumbItem :=
  fold_left
    (λ items record,
       if String.eqb (record_path record) "/" then items
       else items ++ [{| item_path := record_path record;
                         item_title := breadcrumb_title record |}])
    matched [].

(** ** The views *)

(** What a component adds to the browser: the [ElMessage] toasts shown,
    the paths given to [router.push], and its [loading] ref. *)
Inductive Toast := ToastSuccess | ToastWarning | ToastError.

Record Page := {
  world : World;
  toasts : list (Toast * string);
  pushes : list string;
  loading : bool
}.

(** An [async] handler of a component. *)
Definition View (A : Type) : Type := Page → Settled A * Page.

Definition view_ret {A} (a : A) : View A := λ p, (Fulfilled a, p).
Definition view_bind {A B} (m : View A) (k : A → View B) : View B :=
  λ p, match m p with
       | (Fulfilled a, p') => k a p'
       | (Rejected e, p') => (Rejected e, p')
       end.

Declare Scope view_scope.
Delimit Scope view_scope with view.
Notation "x ⇐ m ; k" := (view_bind m (λ x, k))
  (at level 100, m at next level, right associativity, only parsing)
  : view_scope.
Notation "m ;; k" := (view_bind m (λ _, k))
  (at level 100, right associativity, only parsing) : view_scope.

(** An API call made from a component. *)
Definition lift {A} (m : IO A) : View A :=
  λ p, match m (world p) with
       | (r, w') =>
           (r, {| world := w'; toasts := toasts p; pushes := pushes p;
                  loading := loading p |})
       end.

(** [ElMessage.success], [ElMessage.warning], [ElMessage.error]. *)
Definition ElMessage (kind : Toast) (text : string) : View unit :=
  λ p, (Fulfilled tt,
        {| world := world p; toasts := toasts p ++ [(kind, text)];
           pushes := pushes p; loading := loading p |}).

(** [router.push(to)]. *)
Definition router_push (to : string) : View unit :=
  λ p, (Fulfilled tt,
        {| world := world p; toasts := toasts p;
           pushes := pushes p ++ [to]; loading := loading p |}).

(** [loading.value = b]. *)
Definition set_loading (b : bool) : View unit :=
  λ p, (Fulfilled tt,
        {| world := world p; toasts := toasts p; pushes := pushes p;
           loading := b |}).

(** [try { body } catch (error) { handler }] in a component. *)
Definition view_try_catch {A} (body : View A) (handler : JsError → View A)
    : View A :=
  λ p, match body p with
       | (Fulfilled a, p') => (Fulfilled a, p')
       | (Rejected e, p') => handler e p'
       end.

(** [try { body } finally { fin }] in a component. *)
Definition view_try_finally {A} (body : View A) (fin : View unit) : View A :=
  λ p, match body p with
       | (r, p1) =>
           match fin p1 with
           | (Fulfilled _, p2) => (r, p2)
           | (Rejected e, p2) => (Rejected e, p2)
           end
       end.

Section Views.

Variable VITE_API_BASE_PATH : option string.

(** The [length] of a string, in UTF-16 code units. *)
Variable js_length : string → nat.

Variable JSON_stringify : UserForm → string.

(** *** The login view *)

Definition login_handleSubmit
    (transport : InternalConfig → Outcome (option LoginResponse))
    (form : LoginRequest) : View unit :=
  (if negb (truthy (Some (username form)))
      || negb (truthy (Some (password form)))
   then ElMessage ToastWarning "请输入用户名和密码"
   else
     set_loading true;;
     view_try_finally
       (view_try_catch
          (lift (login VITE_API_BASE_PATH transport form);;
           ElMessage ToastSuccess "登录成功";;
           router_push "/dashboard")
          (λ error,
             ElMessage ToastError "登录失败，请检查用户名和密码";;
             lift (console_error "Login error:" (message error))))
       (set_loading false))%view.

(** *** The header *)

Definition handleLogout {T : Type} (transport : InternalConfig → Outcome T)
    : View unit :=
  (view_try_catch
     (lift (logout VITE_API_BASE_PATH transport);;
      ElMessage ToastSuccess "退出登录成功";;
      router_push "/login")
     (λ error,
        ElMessage ToastError "退出登录失败";;
        lift (console_error "Logout error:" (message error))))%view.

(** *** The create dialog ([Add.vue]) *)

Definition add_validateForm (form : UserForm) : View bool :=
  (if negb (truthy (Some (form_username form)))
   then ElMessage ToastWarning "请输入用户名";; view_ret false
   else if negb (truthy (Some (form_name form)))
   then ElMessage ToastWarning "请输入昵称";; view_ret false
   else if negb (truthy (form_password form))
   then ElMessage ToastWarning "请输入密码";; view_ret false
   else view_ret true)%view.

Definition add_handleSubmit {T : Type}
    (transport : InternalConfig → Outcome T) (form : UserForm) : View unit :=
  (valid ⇐ add_validateForm form;
   if negb valid then view_ret tt
   else
     set_loading true;;
     view_try_finally
       (view_try_catch
          (lift (createUser VITE_API_BASE_PATH T transport JSON_stringify
                   form);;
           ElMessage ToastSuccess "用户创建成功";;
           router_push "/users")
          (λ error,
             ElMessage ToastError "创建用户失败";;
             lift (console_error "Create user error:" (message error))))
       (set_loading false))%view.

(** *** The user page: the validators of its two dialogs *)

Definition validateCreateForm (createForm : UserForm) : View bool :=
  let password := default "" (form_password createForm) in
  (if negb (truthy (Some (form_username createForm)))
   then ElMessage ToastWarning "请输入用户名";; view_ret false
   else if (js_length (form_username createForm) <? 3)%nat
           || (20 <? js_length (form_username createForm))%nat
   then ElMessage ToastWarning "用户名长度应在3-20个字符之间";;
        view_ret false
   else if negb (truthy (Some (form_name createForm)))
   then ElMessage ToastWarning "请输入昵称";; view_ret false
   else if (js_length (form_name createForm) <? 2)%nat
           || (20 <? js_length (form_name createForm))%nat
   then ElMessage ToastWarning "昵称长度应在2-20个字符之间";;
        view_ret false
   else if negb (truthy (form_password createForm))
   then ElMessage ToastWarning "请输入密码";; view_ret false
   else if (js_length password <? 6)%nat
   then ElMessage ToastWarning "密码长度不能少于6个字符";;
        view_ret false
   else view_ret true)%view.

Definition validateEditForm (editForm : UserForm) : View bool :=
  let password := default "" (form_password editForm) in
  (if negb (truthy (Some (form_username editForm)))
   then ElMessage ToastWarning "请输入用户名";; view_ret false
   else if (js_length (form_username editForm) <? 3)%nat
           || (20 <? js_length (form_username editForm))%nat
   then ElMessage ToastWarning "用户名长度应在3-20个字符之间";;
        view_ret false
   else if negb (truthy (Some (form_name editForm)))
   then ElMessage ToastWarning "请输入昵称";; view_ret false
   else if (js_length (form_name editForm) <? 2)%nat
           || (20 <? js_length (form_name editForm))%nat
   then ElMessage ToastWarning "昵称长度应在2-20个字符之间";;
        view_ret false
   else if truthy (form_password editForm) && (js_length password <? 6)%nat
   then ElMessage ToastWarning "密码长度不能少于6个字符";;
        view_ret false
   else view_ret true)%view.

End Views.

(** A page with nothing shown yet. *)
Definition page_of (w : World) : Page :=
  {| world := w; toasts := []; pushes := []; loading := false |}.

(** A page with one more warning shown. *)
Definition warned (text : string) (p : Page) : Page :=
  {| world := world p; toasts := toasts p ++ [(ToastWarning, text)];
     pushes := pushes p; loading := loading p |}.

(** * Properties *)

(** Decide the equality tests on a status left in the goal. *)
Ltac status_tests :=
  repeat match goal with
         | |- context [?s =? ?k] =>
             destruct (Z.eqb_spec s k); [first [lia | reflexivity]|]
         end;
  try reflexivity.

(** ** The [switch] over the status *)

(** The [switch] of the handler is a chain of equality tests. *)
Lemma switch_status {A} (s : Z) (a400 a401 a403 a404 a500 other : A) :
  match s with
  | 400 => a400
  | 401 => a401
  | 403 => a403
  | 404 => a404
  | 500 => a500
  | _ => other
  end =
  if s =? 400 then a400
  else if s =? 401 then a401
  else if s =? 403 then a403
  else if s =? 404 then a404
  else if s =? 500 then a500
  else other.
Proof.
  destruct s as [|p|p]; try reflexivity.
  repeat first [ reflexivity | destruct p as [p|p|] ].
Qed.

Lemma cause_of_response {T} (e : AxiosError T) (r : ErrorResponse T) :
  response e = Some r →
  cause_of e =
  if error_status r =? 400 then Some BadRequest
  else if error_status r =? 401 then Some Unauthorized
  else if error_status r =? 403 then Some Forbidden
  else if error_status r =? 404 then Some NotFound
  else if error_status r =? 500 then Some ServerError
  else None.
Proof.
  intros Hr. unfold cause_of. rewrite Hr. apply switch_status.
Qed.

(** ** The rejected branch of the response interceptor *)

(** The handler never fulfils: it rejects with [raised], and leaves the
    world [handled]. *)
Lemma response_interceptor_error_run {T} (e : AxiosError T) (w : World) :
  response_interceptor_error T e w = (Rejected (raised e), handled e w).
Proof.
  unfold response_interceptor_error, raised, handled, throws, unauthorized,
    raised_text, fallback_text.
  destruct (response e) as [r|] eqn:Hr.
  - rewrite (cause_of_response e r Hr), switch_status.
    destruct (error_data r) as [envelope|].
    + rewrite bool_decide_eq_false_2 by discriminate.
      destruct (Z.eqb_spec (error_status r) 400) as [E|_];
        [rewrite ?E; reflexivity|].
      destruct (Z.eqb_spec (error_status r) 401) as [E|_];
        [rewrite ?E; reflexivity|].
      destruct (Z.eqb_spec (error_status r) 403) as [E|_];
        [rewrite ?E; reflexivity|].
      destruct (Z.eqb_spec (error_status r) 404) as [E|_];
        [rewrite ?E; reflexivity|].
      destruct (Z.eqb_spec (error_status r) 500) as [E|_];
        [rewrite ?E; reflexivity|].
      reflexivity.
    + rewrite bool_decide_eq_true_2 by reflexivity.
      repeat (destruct (_ =? _); [reflexivity|]). reflexivity.
  - unfold cause_of. rewrite Hr.
    destruct (request e); reflexivity.
Qed.

(** ** One call through the pipeline *)

Section Pipeline.

Context (env : option string) {T : Type}.
Context (transport : InternalConfig → Outcome T).

Lemma request_interceptor_run (c : Call) (w : World) :
  request_interceptor (call_config env c) w = (Fulfilled (outgoing env c w), w).
Proof.
  unfold request_interceptor, outgoing.
  destruct (truthy (getItem "token" w)); reflexivity.
Qed.

Lemma apiClient_request (c : Call) (w : World) :
  apiClient env T transport c w =
  match axiosInstance_request T transport (call_config env c) w with
  | (Fulfilled r, w') => (Fulfilled (body r), w')
  | (Rejected e, w') => (Rejected e, w')
  end.
Proof. destruct c; reflexivity. Qed.

(** A 2xx answer: the verb fulfils with the body of the answer, and the
    only trace is the request on the wire. *)
Lemma apiClient_fulfilled (c : Call) (w : World) (r : AxiosResponse T) :
  transport (outgoing env c w) = Responded r →
  validateStatus (status r) = true →
  apiClient env T transport c w
  = (Fulfilled (body r), transmit (outgoing env c w) w).
Proof.
  intros Ho Hs. rewrite apiClient_request.
  unfold axiosInstance_request, bind.
  rewrite request_interceptor_run. unfold dispatch. rewrite Ho, Hs.
  reflexivity.
Qed.

(** Any other outcome: the verb rejects with the handler's [Error]. *)
Lemma apiClient_rejected (c : Call) (w : World) :
  let o := transport (outgoing env c w) in
  failed o = true →
  apiClient env T transport c w
  = (Rejected (raised (error_of o)),
     handled (error_of o) (dispatched o (outgoing env c w) w)).
Proof.
  intros o Hf. rewrite apiClient_request.
  unfold axiosInstance_request, bind.
  rewrite request_interceptor_run. unfold dispatch. fold o.
  destruct o as [r|s outside|why|why]; cbn [failed] in Hf; cbv beta iota.
  - apply negb_true_iff in Hf. rewrite Hf.
    rewrite response_interceptor_error_run. reflexivity.
  - rewrite response_interceptor_error_run. reflexivity.
  - rewrite response_interceptor_error_run. reflexivity.
  - rewrite response_interceptor_error_run. reflexivity.
Qed.

End Pipeline.

Lemma call_config_Authorization (env : option string) (c : Call) :
  cfg_headers (call_config env c) !! "Authorization" = caller_Authorization c.
Proof.
  unfold caller_Authorization.
  destruct c as [u [cfg|]|u d [cfg|]|u d [cfg|]|u [cfg|]]; simpl;
    unfold default_headers;
    rewrite ?lookup_union_l by (by rewrite lookup_singleton_ne);
    rewrite ?lookup_singleton_ne by done; reflexivity.
Qed.

Lemma apiClient_wire (env : option string) {T : Type}
    (transport : InternalConfig → Outcome T) (c : Call) (w : World) :
  wire (apiClient env T transport c w).2
  = wire w ++ transmitted (transport (outgoing env c w)) (outgoing env c w).
Proof.
  destruct (failed (transport (outgoing env c w))) eqn:Hf.
  - rewrite (apiClient_rejected env transport c w Hf).
    assert (Hw : ∀ e v, wire (handled (T := T) e v) = wire v)
      by (intros e v; unfold handled; destruct (throws e); reflexivity).
    cbn [snd]. rewrite Hw.
    destruct (transport (outgoing env c w)); simpl;
      rewrite ?app_nil_r; reflexivity.
  - destruct (transport (outgoing env c w)) as [r| | |] eqn:Ho;
      try discriminate.
    simpl in Hf. apply negb_false_iff in Hf.
    rewrite (apiClient_fulfilled env transport c w r Ho Hf). reflexivity.
Qed.

(** The handler throws exactly on the answers whose body is [null]. *)
Lemma throws_error_of {T} (o : Outcome T) : throws (error_of o) = null_body o.
Proof.
  destruct o; reflexivity.
Qed.

Lemma handled_thrown {T} (e : AxiosError T) (w : World) :
  throws e = true → handled e w = w.
Proof. intros H. unfold handled. rewrite H. reflexivity. Qed.

Lemma handled_not_thrown {T} (e : AxiosError T) (w : World) :
  throws e = false →
  handled e w
  = {| localStorage :=
         if unauthorized e then delete "token" (localStorage w)
         else localStorage w;
       location_log :=
         if unauthorized e then location_log w ++ ["/login"]
         else location_log w;
       console := console w ++ ["API Error: " +:+ raised_text e];
       wire := wire w |}.
Proof. intros H. unfold handled. rewrite H. reflexivity. Qed.

(** What the handler does to the session. *)
Lemma handled_session {T} (e : AxiosError T) (w : World) :
  localStorage (handled e w)
  = (if clears_session e then delete "token" (localStorage w)
     else localStorage w)
  ∧ location_log (handled e w)
    = (if clears_session e then location_log w ++ ["/login"]
       else location_log w).
Proof.
  unfold handled, clears_session.
  destruct (throws e); [rewrite andb_false_r; split; reflexivity|].
  rewrite andb_true_r. destruct (unauthorized e); split; reflexivity.
Qed.

(** ** Session invalidation on 401 *)

(** The 401 branch on an answer that carries an envelope: whatever the
    verb, the call is rejected with the unauthorized message, the token is
    gone from [localStorage] (so every presence test is false), and
    exactly one assignment of [/login] to [window.location.href] has been
    added. *)
Theorem unauthorized_clears_session_and_redirects_once
    (env : option string) (T : Type) (transport : InternalConfig → Outcome T)
    (c : Call) (w : World) (b : BaseResponse T) :
  transport (outgoing env c w) = Responded {| status := 401; body := b |} →
  ∃ w',
    apiClient env T transport c w
    = (Rejected (Error (or_else (msg b) "未授权，请重新登录")), w')
    ∧ localStorage w' = delete "token" (localStorage w)
    ∧ getItem "token" w' = None
    ∧ isAuthenticated w' = false
    ∧ truthy (getItem "token" w') = false
    ∧ location_log w' = location_log w ++ ["/login"].
Proof.
  intros Ho.
  pose proof (apiClient_rejected env transport c w) as Hrun.
  rewrite Ho in Hrun. specialize (Hrun eq_refl).
  set (o := Responded {| status := 401; body := b |}) in *.
  assert (Ht : throws (error_of o) = false) by (rewrite throws_error_of; reflexivity).
  rewrite (handled_not_thrown _ _ Ht) in Hrun.
  unfold raised in Hrun. rewrite Ht in Hrun.
  eexists. split; [exact Hrun|].
  assert (Hget : ∀ m : gmap string string, delete "token" m !! "token" = None)
    by (intros m; apply lookup_delete_eq).
  unfold isAuthenticated, getItem. simpl. rewrite Hget. repeat split.
Qed.

Lemma unauthorized_clears_session_and_redirects_once_witness :
  answer 401 {| code := 401; msg := ""; data := tt |}
    (outgoing None (Get "/users" None) (signed_in "tok1"))
  = Responded {| status := 401;
                 body := {| code := 401; msg := ""; data := tt |} |}
  ∧ ∃ w',
      apiClient None unit (answer 401 {| code := 401; msg := ""; data := tt |})
        (Get "/users" None) (signed_in "tok1")
      = (Rejected (Error "未授权，请重新登录"), w')
      ∧ localStorage w' = delete "token" (localStorage (signed_in "tok1"))
      ∧ getItem "token" w' = None
      ∧ isAuthenticated w' = false
      ∧ truthy (getItem "token" w') = false
      ∧ location_log w' = location_log (signed_in "tok1") ++ ["/login"].
Proof.
  split; [reflexivity|].
  apply (unauthorized_clears_session_and_redirects_once None unit
           (answer 401 {| code := 401; msg := ""; data := tt |})
           (Get "/users" None) (signed_in "tok1")
           {| code := 401; msg := ""; data := tt |}).
  reflexivity.
Defined.

(** C1.  The claim fails on the code when a 401 answer has the body
    [null]: whatever the verb, the handler throws at [data.msg], before
    [removeItem] and before the assignment to [window.location.href].  The
    call is rejected with the [TypeError]; [localStorage], the token with
    it, is what it was, no page has been requested and nothing has been
    logged. *)
Theorem unauthorized_null_body_keeps_session
    (env : option string) (T : Type) (transport : InternalConfig → Outcome T)
    (c : Call) (w : World) (outside : validateStatus 401 = false) :
  transport (outgoing env c w) = RespondedNull 401 outside →
  ∃ w',
    apiClient env T transport c w = (Rejected TypeError_null_msg, w')
    ∧ localStorage w' = localStorage w
    ∧ getItem "token" w' = getItem "token" w
    ∧ isAuthenticated w' = isAuthenticated w
    ∧ location_log w' = location_log w
    ∧ console w' = console w.
Proof.
  intros Ho.
  pose proof (apiClient_rejected env transport c w) as Hrun.
  rewrite Ho in Hrun. specialize (Hrun eq_refl).
  set (o := RespondedNull 401 outside) in *.
  assert (Ht : throws (error_of o) = true) by (rewrite throws_error_of; reflexivity).
  rewrite (handled_thrown _ _ Ht) in Hrun.
  unfold raised in Hrun. rewrite Ht in Hrun.
  eexists. split; [exact Hrun|]. repeat split.
Qed.

Lemma unauthorized_null_body_keeps_session_witness :
  let transport : InternalConfig → Outcome unit :=
    λ _, RespondedNull 401 eq_refl in
  transport (outgoing None (Get "/users" None) (signed_in "tok1"))
  = RespondedNull 401 eq_refl
  ∧ ∃ w',
      apiClient None unit transport (Get "/users" None) (signed_in "tok1")
      = (Rejected TypeError_null_msg, w')
      ∧ localStorage w' = localStorage (signed_in "tok1")
      ∧ getItem "token" w' = Some "tok1"
      ∧ isAuthenticated w' = true
      ∧ location_log w' = []
      ∧ console w' = [].
Proof.
  intros transport. split; [reflexivity|].
  apply (unauthorized_null_body_keeps_session None unit transport
           (Get "/users" None) (signed_in "tok1") eq_refl).
  reflexivity.
Defined.

(** ** Credential injection *)

Lemma outgoing_with_token (env : option string) (c : Call) (w : World)
    (token : string) :
  getItem "token" w = Some token → token ≠ "" →
  outgoing env c w = set_Authorization ("Bearer " +:+ token) (call_config env c).
Proof.
  intros Hg Hne. unfold outgoing. rewrite Hg. simpl.
  destruct (String.eqb_spec token ""); [contradiction|reflexivity].
Qed.

Lemma outgoing_without_token (env : option string) (c : Call) (w : World) :
  truthy (getItem "token" w) = false → outgoing env c w = call_config env c.
Proof. intros Hf. unfold outgoing. rewrite Hf. reflexivity. Qed.

(** C2. For each of the four verbs, the request that leaves the request
    interceptor, and that the adapter puts on the wire, is [outgoing]:
    with a non-empty token stored it carries [Authorization: Bearer token];
    with no token stored the interceptor returns the caller's configuration
    as it is, so the only [Authorization] header is one the caller wrote
    (none when the caller passes none). *)
Theorem bearer_header_follows_stored_credential
    (env : option string) (T : Type) (transport : InternalConfig → Outcome T)
    (c : Call) (w : World) :
  request_interceptor (call_config env c) w = (Fulfilled (outgoing env c w), w)
  ∧ wire (apiClient env T transport c w).2
    = wire w ++ transmitted (transport (outgoing env c w)) (outgoing env c w)
  ∧ (∀ token, getItem "token" w = Some token → token ≠ "" →
       cfg_headers (outgoing env c w) !! "Authorization"
       = Some ("Bearer " +:+ token))
  ∧ (getItem "token" w = None →
       outgoing env c w = call_config env c
       ∧ cfg_headers (outgoing env c w) !! "Authorization"
         = caller_Authorization c)
  ∧ (getItem "token" w = None → caller_Authorization c = None →
       cfg_headers (outgoing env c w) !! "Authorization" = None).
Proof.
  split; [apply request_interceptor_run|].
  split; [apply apiClient_wire|].
  split; [|split].
  - intros token Hg Hne.
    rewrite (outgoing_with_token env c w token Hg Hne). simpl.
    apply lookup_insert_eq.
  - intros Hg.
    assert (Hf : truthy (getItem "token" w) = false) by (rewrite Hg; done).
    rewrite (outgoing_without_token env c w Hf).
    split; [reflexivity|apply call_config_Authorization].
  - intros Hg Hc.
    assert (Hf : truthy (getItem "token" w) = false) by (rewrite Hg; done).
    rewrite (outgoing_without_token env c w Hf), call_config_Authorization.
    exact Hc.
Qed.

Lemma bearer_header_follows_stored_credential_witness :
  (getItem "token" (signed_in "tok1") = Some "tok1" ∧ "tok1" ≠ ""
   ∧ cfg_headers
       (outgoing None (Post "/user" (PlainObject "{}") None) (signed_in "tok1"))
       !! "Authorization" = Some "Bearer tok1")
  ∧ (getItem "token" empty_world = None
     ∧ caller_Authorization (Delete "/user/7" None) = None
     ∧ cfg_headers (outgoing None (Delete "/user/7" None) empty_world)
         !! "Authorization" = None).
Proof.
  split.
  - split; [reflexivity|]. split; [discriminate|].
    destruct (bearer_header_follows_stored_credential None unit
                (answer 200 {| code := 0; msg := "ok"; data := tt |})
                (Post "/user" (PlainObject "{}") None) (signed_in "tok1"))
      as (_ & _ & H & _).
    apply (H "tok1"); [reflexivity|discriminate].
  - split; [reflexivity|]. split; [reflexivity|].
    destruct (bearer_header_follows_stored_credential None unit
                (answer 200 {| code := 0; msg := "ok"; data := tt |})
                (Delete "/user/7" None) empty_world)
      as (_ & _ & _ & _ & H).
    apply H; reflexivity.
Defined.

(** ** Classification of failures *)

Lemma fallback_text_response {T} (e : AxiosError T) (r : ErrorResponse T) :
  response e = Some r →
  fallback_text e =
  if error_status r =? 400 then "请求参数错误"
  else if error_status r =? 401 then "未授权，请重新登录"
  else if error_status r =? 403 then "没有权限访问该资源"
  else if error_status r =? 404 then "请求的资源不存在"
  else if error_status r =? 500 then "服务器内部错误"
  else "请求失败 (" +:+ pretty (error_status r) +:+ ")".
Proof.
  intros Hr. unfold fallback_text.
  rewrite (cause_of_response e r Hr), Hr.
  repeat (destruct (_ =? _); [reflexivity|]). reflexivity.
Qed.

(** The taxonomy of the code agrees with the wording of the specification
    except on the 5xx statuses other than 500. *)
Lemma cause_of_spec_cause {T} (e : AxiosError T) :
  (∀ r, response e = Some r → 500 < error_status r <= 599 → False) →
  cause_of e = spec_cause e.
Proof.
  intros Hs. unfold spec_cause.
  destruct (response e) as [r|] eqn:Hr.
  - rewrite (cause_of_response e r Hr). specialize (Hs r eq_refl). cbv zeta.
    destruct (Z.eqb_spec (error_status r) 400); [reflexivity|].
    destruct (Z.eqb_spec (error_status r) 401); [reflexivity|].
    destruct (Z.eqb_spec (error_status r) 403); [reflexivity|].
    destruct (Z.eqb_spec (error_status r) 404); [reflexivity|].
    destruct (Z.eqb_spec (error_status r) 500) as [E|NE].
    + rewrite E. reflexivity.
    + destruct (Z.leb_spec 500 (error_status r)); [|reflexivity].
      destruct (Z.leb_spec (error_status r) 599); [|reflexivity].
      exfalso. apply Hs. lia.
  - unfold cause_of. rewrite Hr. reflexivity.
Qed.

(** C3, as the code has it.  A call whose outcome is not a 2xx answer is
    always rejected, never swallowed.  When the answer carries an
    envelope, or there is no answer, it is rejected with exactly one
    [Error], chosen by exactly one branch of the handler: 400 is
    BadRequest, 401 Unauthorized, 403 Forbidden, 404 NotFound, 500
    ServerError, a missing response NetworkError, and an error before
    dispatch ConfigError with the raised error's own text and nothing on
    the wire.  Every other status, the 5xx statuses other than 500 among
    them, takes the [default] branch, which has no cause of the taxonomy
    and whose text is the server's [msg] or the generic
    "请求失败 (status)".  Away from those 5xx statuses the cause is the
    one the specification names. *)
Theorem failure_is_raised_under_one_branch
    (env : option string) (T : Type) (transport : InternalConfig → Outcome T)
    (c : Call) (w : World) :
  let o := transport (outgoing env c w) in
  let e := error_of o in
  failed o = true →
  (∃ error, (apiClient env T transport c w).1 = Rejected error)
  ∧ (null_body o = false →
       (apiClient env T transport c w).1 = Rejected (Error (raised_text e)))
  ∧ (∀ r, o = Responded r →
       let m := msg (body r) in
       (status r = 400 →
          cause_of e = Some BadRequest
          ∧ raised_text e = or_else m "请求参数错误")
       ∧ (status r = 401 →
          cause_of e = Some Unauthorized
          ∧ raised_text e = or_else m "未授权，请重新登录")
       ∧ (status r = 403 →
          cause_of e = Some Forbidden
          ∧ raised_text e = or_else m "没有权限访问该资源")
       ∧ (status r = 404 →
          cause_of e = Some NotFound
          ∧ raised_text e = or_else m "请求的资源不存在")
       ∧ (status r = 500 →
          cause_of e = Some ServerError
          ∧ raised_text e = or_else m "服务器内部错误")
       ∧ (status r ≠ 400 → status r ≠ 401 → status r ≠ 403 →
          status r ≠ 404 → status r ≠ 500 →
          cause_of e = None
          ∧ raised_text e
            = or_else m ("请求失败 (" +:+ pretty (status r) +:+ ")"))
       ∧ (¬ (500 < status r <= 599) → cause_of e = spec_cause e))
  ∧ (∀ why, o = NoResponse why →
       cause_of e = Some NetworkError
       ∧ cause_of e = spec_cause e
       ∧ raised_text e = "网络错误，请检查网络连接")
  ∧ (∀ why, o = SetupFailure why →
       cause_of e = Some ConfigError
       ∧ cause_of e = spec_cause e
       ∧ raised_text e = why
       ∧ wire (apiClient env T transport c w).2 = wire w).
Proof.
  intros o e Hf.
  pose proof (apiClient_rejected env transport c w Hf) as Hrun.
  fold o e in Hrun.
  split; [|split; [|split; [|split]]].
  - rewrite Hrun. eexists. reflexivity.
  - intros Hn. rewrite Hrun. unfold raised, e.
    rewrite throws_error_of, Hn. reflexivity.
  - intros r Ho m.
    set (r' := {| error_status := status r; error_data := Some (body r) |}).
    assert (Hr : response e = Some r') by (unfold e; rewrite Ho; reflexivity).
    pose proof (cause_of_response e r' Hr) as Hc.
    pose proof (fallback_text_response e r' Hr) as Ht.
    assert (Hx : raised_text e = or_else m (fallback_text e))
      by (unfold raised_text; rewrite Hr; reflexivity).
    assert (Hspec : ¬ (500 < status r <= 599) → cause_of e = spec_cause e).
    { intros Hn. apply cause_of_spec_cause.
      intros r'' Hr'' Hs. rewrite Hr in Hr''. injection Hr'' as <-.
      simpl in Hs. tauto. }
    cbn [error_status r'] in Hc, Ht.
    rewrite Hx, Hc, Ht. clear Hx Ht.
    repeat split;
      try (intros Hn; rewrite <- Hc; exact (Hspec Hn)); clear Hspec Hc;
      try match goal with
          | E : status r = _ |- _ => rewrite E; reflexivity
          end;
      status_tests.
  - intros why Ho. unfold e. rewrite Ho. repeat split.
  - intros why Ho. unfold e.
    pose proof (apiClient_wire env transport c w) as Hw.
    fold o in Hw. rewrite Hw, Ho. simpl. rewrite app_nil_r. repeat split.
Qed.

Lemma failure_is_raised_under_one_branch_witness :
  failed (answer 403 {| code := 403; msg := ""; data := tt |}
            (outgoing None (Get "/users" None) (signed_in "tok1"))) = true
  ∧ (apiClient None unit (answer 403 {| code := 403; msg := ""; data := tt |})
       (Get "/users" None) (signed_in "tok1")).1
    = Rejected (Error "没有权限访问该资源").
Proof.
  split; [reflexivity|].
  destruct (failure_is_raised_under_one_branch None unit
              (answer 403 {| code := 403; msg := ""; data := tt |})
              (Get "/users" None) (signed_in "tok1") eq_refl)
    as (_ & H & _).
  rewrite (H eq_refl). reflexivity.
Defined.

(** C3 as worded fails at status 502: the specification names ServerError,
    the handler takes its [default] branch, as it does for 418, and raises
    the generic text, not the text of the 500 branch. *)
Lemma status_502_is_not_ServerError :
  let b : BaseResponse unit := {| code := 502; msg := ""; data := tt |} in
  let e := error_of (Responded {| status := 502; body := b |}) in
  spec_cause e = Some ServerError
  ∧ cause_of e = None
  ∧ cause_of e ≠ spec_cause e
  ∧ (apiClient None unit (answer 502 b) (Get "/users" None) empty_world).1
    = Rejected (Error "请求失败 (502)")
  ∧ (apiClient None unit (answer 418 b) (Get "/users" None) empty_world).1
    = Rejected (Error "请求失败 (418)")
  ∧ (apiClient None unit (answer 500 b) (Get "/users" None) empty_world).1
    = Rejected (Error "服务器内部错误").
Proof. repeat split; discriminate. Qed.

(** ** Successful answers *)

Lemma validateStatus_2xx (s : Z) : validateStatus s = true ↔ 200 <= s < 300.
Proof. unfold validateStatus. rewrite andb_true_iff. lia. Qed.

(** C7, as the code has it.  A 2xx answer whose body carries a non-zero
    [code] is not turned into an error: the verb fulfils with the body as
    it came, [code] and [msg] included, nothing is raised or logged, and
    the session is untouched.  Looking at [code] is left to the caller. *)
Theorem nonzero_code_is_returned_not_raised
    (env : option string) (T : Type) (transport : InternalConfig → Outcome T)
    (c : Call) (w : World) (r : AxiosResponse T) :
  transport (outgoing env c w) = Responded r →
  200 <= status r < 300 →
  code (body r) ≠ 0 →
  ∃ v w',
    apiClient env T transport c w = (Fulfilled v, w')
    ∧ code v = code (body r) ∧ code v ≠ 0
    ∧ msg v = msg (body r)
    ∧ data v = data (body r)
    ∧ console w' = console w
    ∧ localStorage w' = localStorage w
    ∧ location_log w' = location_log w.
Proof.
  intros Ho Hs Hc. apply validateStatus_2xx in Hs.
  exists (body r), (transmit (outgoing env c w) w).
  rewrite (apiClient_fulfilled env transport c w r Ho Hs).
  repeat split. exact Hc.
Qed.

Lemma nonzero_code_is_returned_not_raised_witness :
  let b : BaseResponse unit :=
    {| code := 1; msg := "用户名已存在"; data := tt |} in
  let c := Post "/user" (PlainObject "{}") None in
  answer 200 b (outgoing None c (signed_in "tok1"))
  = Responded {| status := 200; body := b |}
  ∧ 200 <= 200 < 300
  ∧ code b ≠ 0
  ∧ ∃ v w',
      apiClient None unit (answer 200 b) c (signed_in "tok1")
      = (Fulfilled v, w')
      ∧ code v = 1 ∧ code v ≠ 0
      ∧ msg v = "用户名已存在"
      ∧ data v = tt
      ∧ console w' = []
      ∧ localStorage w' = localStorage (signed_in "tok1")
      ∧ location_log w' = [].
Proof.
  intros b c.
  split; [reflexivity|]. split; [lia|]. split; [discriminate|].
  apply (nonzero_code_is_returned_not_raised None unit (answer 200 b) c
           (signed_in "tok1") {| status := 200; body := b |});
    [reflexivity | simpl; lia | discriminate].
Defined.

(** C7 as worded fails: status 200 with [code = 1] reaches the caller as a
    fulfilled value, not as an error. *)
Lemma nonzero_code_reaches_caller_as_success :
  let b : BaseResponse unit :=
    {| code := 1; msg := "用户名已存在"; data := tt |} in
  let result :=
    (apiClient None unit (answer 200 b)
       (Post "/user" (PlainObject "{}") None) (signed_in "tok1")).1 in
  result = Fulfilled b ∧ ∀ e, result ≠ Rejected e.
Proof. split; [reflexivity|discriminate]. Qed.

(** C8, as the code has it.  On a 2xx answer each verb fulfils with
    [response.data], that is the body of the answer: the whole
    [{code, msg, data}] envelope, taken out of the axios response and not
    wrapped again.  The payload is the [data] field of the value returned. *)
Theorem success_returns_the_envelope
    (env : option string) (T : Type) (transport : InternalConfig → Outcome T)
    (c : Call) (w : World) (r : AxiosResponse T) :
  transport (outgoing env c w) = Responded r →
  200 <= status r < 300 →
  apiClient env T transport c w
  = (Fulfilled (body r), transmit (outgoing env c w) w)
  ∧ (∀ v, (apiClient env T transport c w).1 = Fulfilled v →
       v = body r ∧ data v = data (body r)).
Proof.
  intros Ho Hs. apply validateStatus_2xx in Hs.
  rewrite (apiClient_fulfilled env transport c w r Ho Hs).
  split; [reflexivity|].
  intros v Hv. simpl in Hv. injection Hv as <-. split; reflexivity.
Qed.

Lemma success_returns_the_envelope_witness :
  let b : BaseResponse Z := {| code := 0; msg := "ok"; data := 5 |} in
  let c := Get "/users" (Some {| headers := ∅;
                                 params := [("page", "1"); ("size", "10")] |}) in
  answer 200 b (outgoing None c (signed_in "tok1"))
  = Responded {| status := 200; body := b |}
  ∧ 200 <= 200 < 300
  ∧ (apiClient None Z (answer 200 b) c (signed_in "tok1")).1 = Fulfilled b.
Proof.
  intros b c.
  split; [reflexivity|]. split; [lia|].
  destruct (success_returns_the_envelope None Z (answer 200 b) c
              (signed_in "tok1") {| status := 200; body := b |})
    as [H _]; [reflexivity | simpl; lia |].
  rewrite H. reflexivity.
Defined.

(** C8 as worded fails: were the value returned the payload alone, two
    answers with the same payload would give the caller the same value.
    They do not; the caller receives the envelope, [msg] and all. *)
Lemma returned_value_is_not_the_payload :
  let b1 : BaseResponse Z := {| code := 0; msg := "ok"; data := 5 |} in
  let b2 : BaseResponse Z := {| code := 0; msg := "success"; data := 5 |} in
  let call b :=
    (apiClient None Z (answer 200 b) (Get "/user/5" None) empty_world).1 in
  data b1 = data b2
  ∧ call b1 ≠ call b2
  ∧ call b1 = Fulfilled {| code := 0; msg := "ok"; data := 5 |}.
Proof. split; [reflexivity|]. split; [discriminate|reflexivity]. Qed.

(** ** Login and logout *)

Lemma apiClient_post_call (env : option string) {T : Type}
    (transport : InternalConfig → Outcome T) url d config :
  apiClient_post env T transport url d config
  = apiClient env T transport (Post url d config).
Proof. reflexivity. Qed.

Lemma login_run (env : option string)
    (transport : InternalConfig → Outcome (option LoginResponse))
    (form : LoginRequest) (w : World) :
  login env transport form w =
  match apiClient env _ transport (login_call form) w with
  | (Fulfilled envelope, w') =>
      match data envelope with
      | Some payload =>
          if truthy (access_token payload)
          then (Fulfilled envelope,
                (setItem "token" (default "" (access_token payload)) w').2)
          else (Fulfilled envelope, w')
      | None => (Fulfilled envelope, w')
      end
  | (Rejected e, w') => (Rejected e, w')
  end.
Proof.
  unfold login, bind. rewrite apiClient_post_call. fold (login_call form).
  destruct (apiClient env _ transport (login_call form) w) as [[v|e] w'];
    [|reflexivity].
  destruct (data v) as [p|]; [|reflexivity].
  destruct (truthy (access_token p)); reflexivity.
Qed.

(** C4, as the code has it.  When the login call succeeds and the payload
    has no [access_token] (no payload, no such field, or an empty one),
    [login] still fulfils with the envelope: nothing is raised, and nothing
    is written, so [localStorage] is what it was before the call. *)
Theorem login_without_token_resolves_and_stores_nothing
    (env : option string)
    (transport : InternalConfig → Outcome (option LoginResponse))
    (form : LoginRequest) (w : World) (r : AxiosResponse (option LoginResponse)) :
  transport (outgoing env (login_call form) w) = Responded r →
  200 <= status r < 300 →
  (∀ payload, data (body r) = Some payload →
     truthy (access_token payload) = false) →
  ∃ w',
    login env transport form w = (Fulfilled (body r), w')
    ∧ localStorage w' = localStorage w
    ∧ getItem "token" w' = getItem "token" w
    ∧ location_log w' = location_log w
    ∧ console w' = console w.
Proof.
  intros Ho Hs Hp. apply validateStatus_2xx in Hs.
  rewrite login_run.
  rewrite (apiClient_fulfilled env transport (login_call form) w r Ho Hs).
  destruct (data (body r)) as [p|] eqn:Hd.
  - rewrite (Hp p eq_refl). eexists. repeat split.
  - eexists. repeat split.
Qed.

Lemma login_without_token_resolves_and_stores_nothing_witness :
  let b : BaseResponse (option LoginResponse) :=
    {| code := 0; msg := "ok";
       data := Some {| access_token := None;
                       token_type := "bearer";
                       expires_in := 3600 |} |} in
  let form := {| username := "admin"; password := "123456" |} in
  answer 200 b (outgoing None (login_call form) (signed_in "stale"))
  = Responded {| status := 200; body := b |}
  ∧ 200 <= 200 < 300
  ∧ (∀ payload, data b = Some payload → truthy (access_token payload) = false)
  ∧ ∃ w',
      login None (answer 200 b) form (signed_in "stale") = (Fulfilled b, w')
      ∧ localStorage w' = localStorage (signed_in "stale")
      ∧ getItem "token" w' = Some "stale"
      ∧ location_log w' = []
      ∧ console w' = [].
Proof.
  intros b form.
  assert (Hp : ∀ payload, data b = Some payload →
                 truthy (access_token payload) = false).
  { intros payload Hd. injection Hd as <-. reflexivity. }
  split; [reflexivity|]. split; [lia|]. split; [exact Hp|].
  apply (login_without_token_resolves_and_stores_nothing None (answer 200 b)
           form (signed_in "stale") {| status := 200; body := b |});
    [reflexivity | simpl; lia | exact Hp].
Defined.

(** C4 as worded fails: a 200 answer without [access_token] makes [login]
    fulfil, not raise; and a token stored earlier is still there, so the
    session still counts as signed in. *)
Lemma login_without_token_is_not_an_error :
  let b : BaseResponse (option LoginResponse) :=
    {| code := 0; msg := "ok";
       data := Some {| access_token := None;
                       token_type := "bearer";
                       expires_in := 3600 |} |} in
  let form := {| username := "admin"; password := "123456" |} in
  let fresh := login None (answer 200 b) form empty_world in
  let again := login None (answer 200 b) form (signed_in "stale") in
  fresh.1 = Fulfilled b
  ∧ (∀ e, fresh.1 ≠ Rejected e)
  ∧ again.1 = Fulfilled b
  ∧ isAuthenticated again.2 = true
  ∧ getItem "token" again.2 = Some "stale".
Proof. repeat split; discriminate. Qed.

(** A login answer with a token stores it (scenario 7 of the
    specification). *)
Example login_stores_token :
  let b : BaseResponse (option LoginResponse) :=
    {| code := 0; msg := "ok";
       data := Some {| access_token := Some "tok1";
                       token_type := "bearer";
                       expires_in := 3600 |} |} in
  let done := login None (answer 200 b)
                {| username := "admin"; password := "123456" |} empty_world in
  done.1 = Fulfilled b
  ∧ getItem "token" done.2 = Some "tok1"
  ∧ isAuthenticated done.2 = true.
Proof. repeat split. Qed.

(** C5. However the call to [/logout] settles, once [logout] has settled
    the token is gone from [localStorage] and every presence test is
    false; [logout] settles the way the call did. *)
Theorem logout_always_clears_token
    (env : option string) (T : Type) (transport : InternalConfig → Outcome T)
    (w : World) :
  let call := apiClient env T transport (Post "/logout" Undefined None) w in
  let done := logout env transport w in
  done.1 = call.1
  ∧ localStorage done.2 = delete "token" (localStorage call.2)
  ∧ getItem "token" done.2 = None
  ∧ isAuthenticated done.2 = false
  ∧ truthy (getItem "token" done.2) = false.
Proof.
  intros call done.
  assert (Hrun : done = (call.1, (removeItem "token" call.2).2)).
  { unfold done, logout, try_finally, bind.
    rewrite apiClient_post_call. fold call.
    destruct call as [[v|e] w']; reflexivity. }
  assert (Hget : getItem "token" done.2 = None).
  { rewrite Hrun. unfold getItem. simpl. apply lookup_delete_eq. }
  rewrite Hrun at 1 2. simpl.
  repeat split.
  - exact Hget.
  - unfold isAuthenticated. rewrite Hget. reflexivity.
  - rewrite Hget. reflexivity.
Qed.

(** [logout] under a network failure (scenario 5 of the specification). *)
Example logout_network_failure :
  let done := logout None (λ _, NoResponse (T := unit) "Network Error")
                (signed_in "tok1") in
  done.1 = Rejected (Error "网络错误，请检查网络连接")
  ∧ getItem "token" done.2 = None
  ∧ location_log done.2 = [].
Proof. repeat split. Qed.

(** ** The navigation guard *)

(** The three branches of the guard, as written.  The guard reads the
    token from [localStorage] at each call, so two worlds with the same
    stored token get the same decision, and
    - a target that requires a session, with no usable token, is sent to
      the [login] route;
    - the [/login] path, with a usable token, is sent to the [dashboard]
      route;
    - any other navigation goes ahead as asked. *)
Theorem guard_decides_from_stored_token
    (to from : RouteLocation) (w : World) :
  let authenticated := truthy (getItem "token" w) in
  let protected := truthy_flag (requiresAuth (meta to)) in
  (∀ w2, getItem "token" w2 = getItem "token" w →
     beforeEach to from w2 = beforeEach to from w)
  ∧ (protected = true → authenticated = false →
       beforeEach to from w = next_name "login")
  ∧ (path to = "/login" → authenticated = true →
       beforeEach to from w = next_name "dashboard")
  ∧ (¬ (protected = true ∧ authenticated = false) →
     ¬ (path to = "/login" ∧ authenticated = true) →
       beforeEach to from w = next).
Proof.
  intros authenticated protected. unfold beforeEach.
  fold authenticated protected.
  split; [|split; [|split]].
  - intros w2 Hg. rewrite Hg. reflexivity.
  - intros -> ->. reflexivity.
  - intros Hp ->. rewrite Hp. simpl.
    rewrite andb_false_r. reflexivity.
  - intros H1 H2.
    destruct protected, authenticated; simpl;
      try (exfalso; apply H1; split; reflexivity);
      rewrite ?andb_false_r, ?andb_true_r;
      try reflexivity;
      (destruct (String.eqb_spec (path to) "/login") as [E|_];
       [exfalso; apply H2; split; [exact E|reflexivity] | reflexivity]).
Qed.

Lemma guard_decides_from_stored_token_witness :
  (truthy_flag (requiresAuth (meta route_dashboard)) = true
   ∧ truthy (getItem "token" empty_world) = false
   ∧ beforeEach route_dashboard route_login empty_world = next_name "login")
  ∧ (path route_login = "/login"
     ∧ truthy (getItem "token" (signed_in "tok1")) = true
     ∧ beforeEach route_login route_dashboard (signed_in "tok1")
       = next_name "dashboard")
  ∧ beforeEach route_users route_dashboard (signed_in "tok1") = next
  ∧ beforeEach route_login route_login empty_world = next.
Proof.
  split; [|split; [|split]].
  - split; [reflexivity|]. split; [reflexivity|].
    destruct (guard_decides_from_stored_token route_dashboard route_login
                empty_world) as (_ & H & _).
    apply H; reflexivity.
  - split; [reflexivity|]. split; [reflexivity|].
    destruct (guard_decides_from_stored_token route_login route_dashboard
                (signed_in "tok1")) as (_ & _ & H & _).
    apply H; reflexivity.
  - destruct (guard_decides_from_stored_token route_users route_dashboard
                (signed_in "tok1")) as (_ & _ & _ & H).
    apply H; intros [H1 H2]; discriminate.
  - destruct (guard_decides_from_stored_token route_login route_login
                empty_world) as (_ & _ & _ & H).
    apply H; intros [H1 H2]; discriminate.
Defined.

(** C6.  The claim fails on the code for a navigation that reaches the
    login route under another spelling of its path: the guard compares
    [to.path] with ['/login'] exactly, so with a usable token a navigation
    to [/login/] or [/LOGIN], which the router resolves to the login route,
    is let through to the login view, while the same target spelled
    [/login] is sent to the dashboard. *)
Theorem guard_admits_other_spellings_of_login
    (to from : RouteLocation) (w : World) :
  resolves_to "/login" (path to) = true →
  path to ≠ "/login" →
  truthy (getItem "token" w) = true →
  beforeEach to from w = next
  ∧ beforeEach {| path := "/login"; meta := meta to |} from w
    = next_name "dashboard".
Proof.
  intros _ Hp Ht. unfold beforeEach. rewrite Ht. cbn [negb path meta].
  rewrite !andb_false_r, !andb_true_r.
  destruct (String.eqb_spec (path to) "/login"); [contradiction|].
  split; reflexivity.
Qed.

Lemma guard_admits_other_spellings_of_login_witness :
  let to := {| path := "/login/"; meta := {| requiresAuth := Some false |} |} in
  resolves_to "/login" (path to) = true
  ∧ resolves_to "/login" "/LOGIN" = true
  ∧ path to ≠ "/login"
  ∧ truthy (getItem "token" (signed_in "tok1")) = true
  ∧ beforeEach to route_dashboard (signed_in "tok1") = next
  ∧ beforeEach route_login route_dashboard (signed_in "tok1")
    = next_name "dashboard".
Proof.
  intros to.
  split; [reflexivity|]. split; [reflexivity|]. split; [discriminate|].
  split; [reflexivity|].
  apply (guard_admits_other_spellings_of_login to route_dashboard
           (signed_in "tok1")); first [reflexivity | discriminate].
Defined.

(** The guard follows the store: the same navigation is decided anew once
    the token has been removed. *)
Example guard_after_removeItem :
  beforeEach route_users route_dashboard (signed_in "tok1") = next
  ∧ beforeEach route_users route_dashboard
      (removeItem "token" (signed_in "tok1")).2 = next_name "login".
Proof. split; reflexivity. Qed.

(** ** Failures other than 401 *)

(** An error before dispatch reaches the caller with its own text and
    nothing goes on the wire (scenario 10 of the specification). *)
Example setup_failure_sends_nothing :
  let done :=
    apiClient None unit (λ _, SetupFailure "Invalid URL")
      (Get "http://[" None) (signed_in "tok1") in
  done.1 = Rejected (Error "Invalid URL")
  ∧ wire done.2 = []
  ∧ getItem "token" done.2 = Some "tok1".
Proof. repeat split. Qed.

(** C9. A failed call whose answer is not a 401 (any other status outside
    2xx, no answer at all, or an error before dispatch) is rejected and
    leaves [localStorage] as it was, the token with it, and requests no
    page. *)
Theorem other_failures_leave_session_untouched
    (env : option string) (T : Type) (transport : InternalConfig → Outcome T)
    (c : Call) (w : World) :
  let o := transport (outgoing env c w) in
  failed o = true →
  (∀ r, o = Responded r → status r ≠ 401) →
  ∃ e w',
    apiClient env T transport c w = (Rejected e, w')
    ∧ localStorage w' = localStorage w
    ∧ getItem "token" w' = getItem "token" w
    ∧ location_log w' = location_log w.
Proof.
  intros o Hf Hs.
  pose proof (apiClient_rejected env transport c w Hf) as Hrun. fold o in Hrun.
  assert (Hu : clears_session (error_of o) = false).
  { unfold clears_session. rewrite throws_error_of.
    destruct o as [r| | |] eqn:Ho; cbn [null_body negb];
      rewrite ?andb_false_r, ?andb_true_r; try reflexivity.
    unfold unauthorized. cbn [error_of response error_status].
    apply Z.eqb_neq. apply Hs. reflexivity. }
  assert (Hd : localStorage (dispatched o (outgoing env c w) w) = localStorage w
               ∧ location_log (dispatched o (outgoing env c w) w)
                 = location_log w)
    by (destruct o; split; reflexivity).
  destruct Hd as [Hd1 Hd2].
  destruct (handled_session (error_of o) (dispatched o (outgoing env c w) w))
    as [Hs1 Hs2].
  rewrite Hu in Hs1, Hs2.
  eexists _, _. split; [exact Hrun|].
  unfold getItem. rewrite Hs1, Hs2, Hd1, Hd2. repeat split.
Qed.

Lemma other_failures_leave_session_untouched_witness :
  let b : BaseResponse unit := {| code := 403; msg := "forbidden"; data := tt |} in
  let c := Delete "/user/7" None in
  failed (answer 403 b (outgoing None c (signed_in "tok1"))) = true
  ∧ (∀ r, answer 403 b (outgoing None c (signed_in "tok1")) = Responded r →
       status r ≠ 401)
  ∧ ∃ e w',
      apiClient None unit (answer 403 b) c (signed_in "tok1") = (Rejected e, w')
      ∧ localStorage w' = localStorage (signed_in "tok1")
      ∧ getItem "token" w' = Some "tok1"
      ∧ location_log w' = [].
Proof.
  intros b c.
  assert (Hs : ∀ r, answer 403 b (outgoing None c (signed_in "tok1"))
                    = Responded r → status r ≠ 401).
  { intros r Hr. injection Hr as <-. discriminate. }
  split; [reflexivity|]. split; [exact Hs|].
  apply (other_failures_leave_session_untouched None unit (answer 403 b) c
           (signed_in "tok1")); [reflexivity|exact Hs].
Defined.

(** ** The empty token *)

(** C10. With the empty string stored under [token] the presence tests
    disagree: [isAuthenticated] answers [true]; the request interceptor
    returns the configuration as it is, with no [Authorization] header of
    its own; the guard takes the user for signed out, sending a protected
    target to [login] and letting any other through, [/login]
    included. *)
Theorem empty_token_splits_presence_tests (w : World) :
  getItem "token" w = Some "" →
  isAuthenticated w = true
  ∧ (∀ env c,
       request_interceptor (call_config env c) w
       = (Fulfilled (call_config env c), w)
       ∧ cfg_headers (outgoing env c w) !! "Authorization"
         = caller_Authorization c)
  ∧ (∀ to from, truthy_flag (requiresAuth (meta to)) = true →
       beforeEach to from w = next_name "login")
  ∧ (∀ to from, truthy_flag (requiresAuth (meta to)) = false →
       beforeEach to from w = next).
Proof.
  intros Hg.
  assert (Hf : truthy (getItem "token" w) = false) by (rewrite Hg; reflexivity).
  split; [|split; [|split]].
  - unfold isAuthenticated. rewrite Hg. reflexivity.
  - intros env c.
    rewrite request_interceptor_run, (outgoing_without_token env c w Hf).
    split; [reflexivity|apply call_config_Authorization].
  - intros to from Hp. unfold beforeEach. rewrite Hf, Hp. reflexivity.
  - intros to from Hp. unfold beforeEach. rewrite Hf, Hp. simpl.
    rewrite andb_false_r. reflexivity.
Qed.

Lemma empty_token_splits_presence_tests_witness :
  getItem "token" (signed_in "") = Some ""
  ∧ isAuthenticated (signed_in "") = true
  ∧ cfg_headers (outgoing None (Get "/users" None) (signed_in ""))
      !! "Authorization" = None
  ∧ beforeEach route_dashboard route_login (signed_in "") = next_name "login"
  ∧ beforeEach route_login route_login (signed_in "") = next.
Proof.
  split; [reflexivity|].
  destruct (empty_token_splits_presence_tests (signed_in "") eq_refl)
    as (H1 & H2 & H3 & H4).
  split; [exact H1|]. split; [|split].
  - destruct (H2 None (Get "/users" None)) as [_ H]. rewrite H. reflexivity.
  - apply H3. reflexivity.
  - apply H4. reflexivity.
Defined.

(** * Further properties *)

(** ** [parseJWT] *)

Lemma split_on_length (sep : Ascii.ascii) (s : string) :
  length (split_on sep s) = S (occurrences sep s).
Proof.
  induction s as [|c rest IH]; [reflexivity|]. simpl.
  destruct (Ascii.eqb c sep); simpl.
  - rewrite IH. reflexivity.
  - destruct (split_on sep rest) as [|head tail]; simpl in *; congruence.
Qed.

(** X1. A token that does not have exactly two dots is no JWT: [parseJWT]
    gives [null] and writes one line on the console, and neither [atob]
    nor [JSON.parse] has a say in it. *)
Theorem parseJWT_needs_two_dots
    (J : Type) (atob : string → Settled string)
    (JSON_parse : string → Settled J) (js_length : string → nat)
    (token : string) (w : World) :
  occurrences "." token ≠ 2%nat →
  parseJWT J atob JSON_parse js_length token w
  = (Fulfilled None,
     (console_error "Failed to parse JWT:" "Invalid token format" w).2).
Proof.
  intros Hdots. unfold parseJWT.
  pose proof (split_on_length "." token) as Hlen.
  destruct (split_on "." token) as [|a [|b [|c [|d rest]]]];
    simpl in Hlen; try reflexivity.
  exfalso. apply Hdots. lia.
Qed.

Lemma parseJWT_needs_two_dots_witness :
  occurrences "." "not-a-jwt" ≠ 2%nat
  ∧ parseJWT unit (λ s, Fulfilled s) (λ _, Fulfilled tt) String.length
      "not-a-jwt" empty_world
    = (Fulfilled None,
       {| localStorage := ∅; location_log := [];
          console := ["Failed to parse JWT: Invalid token format"];
          wire := [] |}).
Proof.
  split; [discriminate|].
  apply (parseJWT_needs_two_dots unit (λ s, Fulfilled s) (λ _, Fulfilled tt)
           String.length "not-a-jwt" empty_world).
  discriminate.
Defined.

(** Unfold the string functions of [parseJWT] one step, leaving the
    character tests folded. *)
Ltac string_step :=
  cbn [occurrences repeat_equals replace_all String.length].

Lemma replace_all_length (a b : Ascii.ascii) (s : string) :
  String.length (replace_all a b s) = String.length s.
Proof. induction s; string_step; congruence. Qed.

Lemma repeat_equals_length (n : nat) : String.length (repeat_equals n) = n.
Proof. induction n; string_step; congruence. Qed.

Lemma string_app_length (s t : string) :
  String.length (s +:+ t) = (String.length s + String.length t)%nat.
Proof. induction s; simpl; [reflexivity|congruence]. Qed.

Lemma occurrences_app (c : Ascii.ascii) (s t : string) :
  occurrences c (s +:+ t) = (occurrences c s + occurrences c t)%nat.
Proof.
  induction s as [|d s IH]; [reflexivity|].
  change (String d s +:+ t) with (String d (s +:+ t)).
  string_step. rewrite IH. lia.
Qed.

Lemma occurrences_repeat_equals (c : Ascii.ascii) (n : nat) :
  c ≠ "="%char → occurrences c (repeat_equals n) = 0%nat.
Proof.
  intros Hc. induction n as [|n IH]; string_step; [reflexivity|].
  rewrite IH. destruct (Ascii.eqb_spec "="%char c); [congruence|reflexivity].
Qed.

(** Replacing [a] by another character leaves no [a]. *)
Lemma occurrences_replaced (a b : Ascii.ascii) (s : string) :
  a ≠ b → occurrences a (replace_all a b s) = 0%nat.
Proof.
  intros Hab. induction s as [|c s IH]; string_step; [reflexivity|].
  rewrite IH. destruct (Ascii.eqb_spec c a) as [->|Hc].
  - destruct (Ascii.eqb_spec b a); [congruence|reflexivity].
  - destruct (Ascii.eqb_spec c a); [congruence|reflexivity].
Qed.

(** Replacing some other character brings in no [c], unless [c] is the
    replacement. *)
Lemma occurrences_replace_other (c a b : Ascii.ascii) (s : string) :
  c ≠ b → occurrences c s = 0%nat → occurrences c (replace_all a b s) = 0%nat.
Proof.
  intros Hcb. induction s as [|d s IH]; string_step; [reflexivity|].
  intros H0. destruct (Ascii.eqb_spec d c) as [->|Hd]; [lia|].
  rewrite (IH H0).
  destruct (Ascii.eqb_spec d a).
  - destruct (Ascii.eqb_spec b c); [congruence|reflexivity].
  - destruct (Ascii.eqb_spec d c); [congruence|reflexivity].
Qed.

Lemma replace_all_absent (a b : Ascii.ascii) (s : string) :
  occurrences a s = 0%nat → replace_all a b s = s.
Proof.
  induction s as [|c s IH]; string_step; [reflexivity|].
  destruct (Ascii.eqb_spec c a); [lia|]. intros H. rewrite (IH H).
  reflexivity.
Qed.

Lemma pad_to_four (n : nat) : ((n + (4 - n `mod` 4) `mod` 4) `mod` 4 = 0)%nat.
Proof.
  pose proof (Nat.mod_upper_bound n 4 ltac:(lia)) as Hr.
  pose proof (Nat.div_mod_eq n 4) as Hn.
  set (r := (n `mod` 4)%nat) in *. set (q := (n `div` 4)%nat) in *.
  rewrite Hn.
  destruct r as [|[|[|[|r]]]]; try lia;
    cbn [Nat.sub];
    [ replace (4 * q + 0 + 4 `mod` 4)%nat with (0 + q * 4)%nat
        by (cbn [Nat.modulo]; simpl; lia)
    | replace (4 * q + 1 + 3 `mod` 4)%nat with (0 + (q + 1) * 4)%nat
        by (simpl; lia)
    | replace (4 * q + 2 + 2 `mod` 4)%nat with (0 + (q + 1) * 4)%nat
        by (simpl; lia)
    | replace (4 * q + 3 + 1 `mod` 4)%nat with (0 + (q + 1) * 4)%nat
        by (simpl; lia) ];
    rewrite Nat.Div0.mod_add; reflexivity.
Qed.

Lemma string_app_empty (s : string) : s +:+ "" = s.
Proof.
  induction s as [|c s IH]; [reflexivity|].
  change (String c (s +:+ "") = String c s). congruence.
Qed.

(** X2. For text of one-byte characters, as base64url text is, what
    [decodeBase64Url] hands to [atob] has a length that is a multiple of
    four and holds no [-] and no [_]; text that is already so is handed
    over unchanged. *)
Theorem to_base64_pads_and_translates (str : string) :
  let out := to_base64 String.length str in
  (String.length out `mod` 4 = 0)%nat
  ∧ occurrences "-" out = 0%nat
  ∧ occurrences "_" out = 0%nat
  ∧ (String.length str <= String.length out < String.length str + 4)%nat
  ∧ to_base64 String.length out = out.
Proof.
  intros out.
  set (base64 := replace_all "_" "/" (replace_all "-" "+" str)).
  set (pad := ((4 - String.length base64 `mod` 4) `mod` 4)%nat).
  assert (Hout : out = base64 +:+ repeat_equals pad) by reflexivity.
  assert (Hlen : String.length base64 = String.length str)
    by (unfold base64; rewrite !replace_all_length; reflexivity).
  assert (Hout_len : String.length out = (String.length base64 + pad)%nat)
    by (rewrite Hout, string_app_length, repeat_equals_length; reflexivity).
  assert (Hmod : (String.length out `mod` 4 = 0)%nat)
    by (rewrite Hout_len; apply pad_to_four).
  assert (Hdash : occurrences "-" out = 0%nat).
  { rewrite Hout, occurrences_app, occurrences_repeat_equals by discriminate.
    unfold base64.
    rewrite occurrences_replace_other;
      [reflexivity | discriminate | apply occurrences_replaced; discriminate]. }
  assert (Hunder : occurrences "_" out = 0%nat).
  { rewrite Hout, occurrences_app, occurrences_repeat_equals by discriminate.
    unfold base64. rewrite occurrences_replaced by discriminate.
    reflexivity. }
  split; [exact Hmod|]. split; [exact Hdash|]. split; [exact Hunder|].
  split.
  - rewrite Hout_len, Hlen.
    pose proof (Nat.mod_upper_bound (4 - String.length base64 `mod` 4) 4
                  ltac:(lia)).
    fold pad in H. lia.
  - unfold to_base64.
    rewrite (replace_all_absent "-" "+" out Hdash).
    rewrite (replace_all_absent "_" "/" out Hunder).
    rewrite Hmod. apply string_app_empty.
Qed.

(** ** [getCurrentUser] *)

(** [parseJWT] always returns, and touches nothing but the console. *)
Lemma parseJWT_quiet
    (J : Type) (atob : string → Settled string)
    (JSON_parse : string → Settled J) (js_length : string → nat)
    (token : string) (w : World) :
  ∃ r w',
    parseJWT J atob JSON_parse js_length token w = (Fulfilled r, w')
    ∧ localStorage w' = localStorage w
    ∧ location_log w' = location_log w
    ∧ wire w' = wire w.
Proof.
  unfold parseJWT.
  destruct (match split_on "." token with
            | [_; part; _] =>
                if truthy (Some part)
                then match decodeBase64Url atob js_length part with
                     | Fulfilled payload => JSON_parse payload
                     | Rejected e => Rejected e
                     end
                else Rejected (Error "Invalid token format")
            | _ => Rejected (Error "Invalid token format")
            end) as [parsed|e].
  - exists (Some parsed), w. repeat split.
  - eexists None, _. repeat split.
Qed.

Lemma apiClient_get_call (env : option string) {T : Type}
    (transport : InternalConfig → Outcome T) url config :
  apiClient_get env T transport url config
  = apiClient env T transport (Get url config).
Proof. reflexivity. Qed.

Lemma outgoing_url_method (env : option string) (c : Call) (w : World) :
  cfg_url (outgoing env c w) = cfg_url (call_config env c)
  ∧ cfg_method (outgoing env c w) = cfg_method (call_config env c).
Proof. unfold outgoing. destruct (truthy _); split; reflexivity. Qed.

Section CurrentUserProperties.

Context (env : option string) (J : Type) (js_truthy : J → bool).
Context (atob : string → Settled string) (JSON_parse : string → Settled J).
Context (js_length : string → nat).
Context (transport : InternalConfig → Outcome (option J)).

Abbreviation current_user :=
  (getCurrentUser env J js_truthy atob JSON_parse js_length transport).
Abbreviation parse := (parseJWT J atob JSON_parse js_length).
Abbreviation profile := (Get "/user/profile" None).

(** [getCurrentUser], step by step. *)
Lemma getCurrentUser_run (w : World) :
  current_user w =
  if truthy (getItem "token" w)
  then
    match parse (default "" (getItem "token" w)) w with
    | (Fulfilled (Some parsed), w1) =>
        if js_truthy parsed
        then (Fulfilled {| code := 0; msg := "Success"; data := Some parsed |},
              w1)
        else
          match apiClient env _ transport profile w1 with
          | (Fulfilled v, w2) => (Fulfilled v, w2)
          | (Rejected e, w2) =>
              (Fulfilled {| code := 1; msg := "Failed to get user profile";
                            data := None |},
               (console_error "Failed to get user profile:" (message e) w2).2)
          end
    | (Fulfilled None, w1) =>
        match apiClient env _ transport profile w1 with
        | (Fulfilled v, w2) => (Fulfilled v, w2)
        | (Rejected e, w2) =>
            (Fulfilled {| code := 1; msg := "Failed to get user profile";
                          data := None |},
             (console_error "Failed to get user profile:" (message e) w2).2)
        end
    | (Rejected e, w1) => (Rejected e, w1)
    end
  else (Fulfilled {| code := 1; msg := "No token found"; data := None |}, w).
Proof.
  unfold getCurrentUser. destruct (truthy (getItem "token" w)); [|reflexivity].
  unfold bind, try_catch. rewrite apiClient_get_call.
  destruct (parse (default "" (getItem "token" w)) w) as [[[parsed|]|e] w1];
    try reflexivity.
  destruct (js_truthy parsed); reflexivity.
Qed.

Lemma outgoing_same_storage (c : Call) (w1 w2 : World) :
  localStorage w1 = localStorage w2 → outgoing env c w1 = outgoing env c w2.
Proof. intros H. unfold outgoing, getItem. rewrite H. reflexivity. Qed.

(** X3. [getCurrentUser] never rejects, whatever the token, [atob],
    [JSON.parse] and the network do; and it sends nothing, or one GET of
    [/user/profile]. *)
Theorem getCurrentUser_never_rejects (w : World) :
  ∃ v w',
    current_user w = (Fulfilled v, w')
    ∧ (wire w' = wire w
       ∨ ∃ req, wire w' = wire w ++ [req]
                ∧ cfg_method req = GET
                ∧ cfg_url req = "/user/profile").
Proof.
  rewrite getCurrentUser_run.
  destruct (truthy (getItem "token" w)); [|eexists _, _; split; [reflexivity|left; reflexivity]].
  destruct (parseJWT_quiet J atob JSON_parse js_length
              (default "" (getItem "token" w)) w)
    as (r & w1 & Hp & _ & _ & Hw1).
  rewrite Hp.
  assert (Hfallback :
    ∃ v w',
      match apiClient env _ transport profile w1 with
      | (Fulfilled v, w2) => (Fulfilled v, w2)
      | (Rejected e, w2) =>
          (Fulfilled {| code := 1; msg := "Failed to get user profile";
                        data := None |},
           (console_error "Failed to get user profile:" (message e) w2).2)
      end = (Fulfilled v, w')
      ∧ (wire w' = wire w
         ∨ ∃ req, wire w' = wire w ++ [req]
                  ∧ cfg_method req = GET
                  ∧ cfg_url req = "/user/profile")).
  { pose proof (apiClient_wire env transport profile w1) as Hw.
    destruct (outgoing_url_method env profile w1) as [Hurl Hmethod].
    assert (Hsent :
      wire w1 ++ transmitted (transport (outgoing env profile w1))
                   (outgoing env profile w1) = wire w
      ∨ ∃ req, wire w1 ++ transmitted (transport (outgoing env profile w1))
                            (outgoing env profile w1) = wire w ++ [req]
               ∧ cfg_method req = GET ∧ cfg_url req = "/user/profile").
    { rewrite Hw1.
      destruct (transport (outgoing env profile w1)); simpl;
        [right|right|right|left; apply app_nil_r];
        (eexists; split; [reflexivity|split; [exact Hmethod|exact Hurl]]). }
    destruct (apiClient env _ transport profile w1) as [[v|e] w2];
      simpl in Hw; rewrite <- Hw in Hsent;
      eexists _, _; (split; [reflexivity|exact Hsent]). }
  destruct r as [parsed|]; [|exact Hfallback].
  destruct (js_truthy parsed); [|exact Hfallback].
  eexists _, _. split; [reflexivity|left; exact Hw1].
Qed.

(** X4. With a stored token whose middle part decodes and parses to a truthy
    value, [getCurrentUser] answers with that value under [code] 0 and
    leaves the browser as it was: nothing is sent. *)
Theorem getCurrentUser_from_token (w : World)
    (token header part signature payload : string) (u : J) :
  getItem "token" w = Some token →
  split_on "." token = [header; part; signature] →
  part ≠ "" →
  atob (to_base64 js_length part) = Fulfilled payload →
  JSON_parse payload = Fulfilled u →
  js_truthy u = true →
  current_user w
  = (Fulfilled {| code := 0; msg := "Success"; data := Some u |}, w).
Proof.
  intros Hg Hsplit Hpart Hatob Hparse Hu.
  assert (Htoken : truthy (Some token) = true).
  { destruct token; [discriminate Hsplit|reflexivity]. }
  rewrite getCurrentUser_run, Hg, Htoken. simpl default.
  unfold parseJWT, decodeBase64Url. rewrite Hsplit.
  assert (Hp : truthy (Some part) = true).
  { simpl. destruct (String.eqb_spec part ""); [contradiction|reflexivity]. }
  rewrite Hp, Hatob, Hparse. unfold ret. rewrite Hu. reflexivity.
Qed.

(** X5. When the token yields nothing usable and the call for the profile
    fails, [getCurrentUser] still fulfils, with [code] 1; the failure shows
    on the console only.  If the failure is a 401 whose body the handler
    can read, the token has been removed and the login page requested all
    the same; in every other case, a 401 with the body [null] among them,
    storage and location are what they were. *)
Theorem getCurrentUser_swallows_profile_failure (w : World) :
  let o := transport (outgoing env profile w) in
  truthy (getItem "token" w) = true →
  (∀ u, (parse (default "" (getItem "token" w)) w).1 = Fulfilled (Some u) →
        js_truthy u = false) →
  failed o = true →
  ∃ w',
    current_user w
    = (Fulfilled {| code := 1; msg := "Failed to get user profile";
                    data := None |}, w')
    ∧ localStorage w'
      = (if clears_session (error_of o)
         then delete "token" (localStorage w) else localStorage w)
    ∧ location_log w'
      = (if clears_session (error_of o)
         then location_log w ++ ["/login"] else location_log w).
Proof.
  intros o Ht Hunusable Hf.
  rewrite getCurrentUser_run, Ht.
  destruct (parseJWT_quiet J atob JSON_parse js_length
              (default "" (getItem "token" w)) w)
    as (r & w1 & Hp & Hs1 & Hl1 & Hw1).
  rewrite Hp in Hunusable |- *. simpl in Hunusable.
  assert (Ho : transport (outgoing env profile w1) = o)
    by (unfold o; rewrite (outgoing_same_storage profile w1 w Hs1); reflexivity).
  assert (Hf1 : failed (transport (outgoing env profile w1)) = true)
    by (rewrite Ho; exact Hf).
  pose proof (apiClient_rejected env transport profile w1 Hf1) as Hrun.
  rewrite Ho in Hrun.
  assert (Hfallback :
    ∃ w',
      match apiClient env _ transport profile w1 with
      | (Fulfilled v, w2) => (Fulfilled v, w2)
      | (Rejected e, w2) =>
          (Fulfilled {| code := 1; msg := "Failed to get user profile";
                        data := None |},
           (console_error "Failed to get user profile:" (message e) w2).2)
      end
      = (Fulfilled {| code := 1; msg := "Failed to get user profile";
                      data := None |}, w')
      ∧ localStorage w'
        = (if clears_session (error_of o)
           then delete "token" (localStorage w) else localStorage w)
      ∧ location_log w'
        = (if clears_session (error_of o)
           then location_log w ++ ["/login"] else location_log w)).
  { rewrite Hrun. eexists. split; [reflexivity|].
    destruct (handled_session (error_of o)
                (dispatched o (outgoing env profile w1) w1)) as [H1 H2].
    cbn [console_error snd localStorage location_log].
    rewrite H1, H2, <- Hs1, <- Hl1.
    destruct o; split; reflexivity. }
  destruct r as [parsed|]; [|exact Hfallback].
  rewrite (Hunusable parsed eq_refl). exact Hfallback.
Qed.

End CurrentUserProperties.

(** [getCurrentUser] when the profile call is answered 401 with the body
    [null]: it fulfils with [code] 1 and the token is still there. *)
Example getCurrentUser_null_401 :
  let done :=
    getCurrentUser None unit (λ _, true) (λ s, Fulfilled s)
      (λ _, Fulfilled tt) String.length
      (λ _, RespondedNull 401 eq_refl) (signed_in "abc") in
  done.1 = Fulfilled {| code := 1; msg := "Failed to get user profile";
                        data := None |}
  ∧ getItem "token" done.2 = Some "abc"
  ∧ location_log done.2 = [].
Proof. repeat split. Qed.

Lemma getCurrentUser_from_token_witness :
  let atob := λ s : string, Fulfilled s in
  let JSON_parse := λ s : string, Fulfilled s in
  let js_truthy := λ s : string, negb (String.eqb s "") in
  let w := signed_in "h.cGF5.s" in
  getItem "token" w = Some "h.cGF5.s"
  ∧ split_on "." "h.cGF5.s" = ["h"; "cGF5"; "s"]
  ∧ "cGF5" ≠ ""
  ∧ atob (to_base64 String.length "cGF5") = Fulfilled "cGF5"
  ∧ JSON_parse "cGF5" = Fulfilled "cGF5"
  ∧ js_truthy "cGF5" = true
  ∧ getCurrentUser None string js_truthy atob JSON_parse String.length
      (λ _, NoResponse "Network Error") w
    = (Fulfilled {| code := 0; msg := "Success"; data := Some "cGF5" |}, w).
Proof.
  intros atob JSON_parse js_truthy w.
  repeat (split; [first [reflexivity | discriminate]|]).
  apply (getCurrentUser_from_token None string js_truthy atob JSON_parse
           String.length (λ _, NoResponse "Network Error") w
           "h.cGF5.s" "h" "cGF5" "s" "cGF5" "cGF5");
    first [reflexivity | discriminate].
Defined.

Lemma getCurrentUser_swallows_profile_failure_witness :
  let atob := λ s : string, Fulfilled s in
  let JSON_parse := λ _ : string, Fulfilled tt in
  let js_truthy := λ _ : unit, true in
  let transport :=
    answer 401 {| code := 401; msg := ""; data := @None unit |} in
  let w := signed_in "abc" in
  truthy (getItem "token" w) = true
  ∧ failed (transport (outgoing None (Get "/user/profile" None) w)) = true
  ∧ ∃ w',
      getCurrentUser None unit js_truthy atob JSON_parse String.length
        transport w
      = (Fulfilled {| code := 1; msg := "Failed to get user profile";
                      data := None |}, w')
      ∧ localStorage w' = delete "token" (localStorage w)
      ∧ location_log w' = ["/login"].
Proof.
  intros atob JSON_parse js_truthy transport w.
  split; [reflexivity|]. split; [reflexivity|].
  apply (getCurrentUser_swallows_profile_failure None unit js_truthy atob
           JSON_parse String.length transport w);
    [reflexivity | intros u Hu; discriminate Hu | reflexivity].
Defined.

(** ** The route table *)

Lemma resolve_declared_names :
  resolve_name "login" = Some route_login
  ∧ resolve_name "dashboard" = Some route_dashboard
  ∧ resolve_name "users" = Some route_users.
Proof. repeat split. Qed.

(** X6. The guard never sends a navigation round in circles: the route it
    redirects to is one it lets through in the same world. *)
Theorem guard_redirect_is_admitted (to from : RouteLocation) (w : World)
    (name : string) :
  beforeEach to from w = next_name name →
  ∃ target,
    resolve_name name = Some target
    ∧ beforeEach target to w = next.
Proof.
  unfold beforeEach.
  destruct (truthy (getItem "token" w)).
  - rewrite andb_false_r, andb_true_r.
    destruct (String.eqb (path to) "/login"); [|discriminate].
    intros [= <-]. exists route_dashboard. split; reflexivity.
  - rewrite andb_true_r, andb_false_r.
    destruct (truthy_flag (requiresAuth (meta to))); [|discriminate].
    intros [= <-]. exists route_login. split; reflexivity.
Qed.

Lemma guard_redirect_is_admitted_witness :
  beforeEach route_users route_login empty_world = next_name "login"
  ∧ ∃ target,
      resolve_name "login" = Some target
      ∧ beforeEach target route_users empty_world = next.
Proof.
  split; [reflexivity|].
  apply (guard_redirect_is_admitted route_users route_login empty_world
           "login").
  reflexivity.
Defined.

(** X7. Every route the table nests under the layout inherits its
    [requiresAuth]: whatever the concrete path, without a usable token the
    guard sends the navigation to [login], and with one it lets it
    through. *)
Theorem layout_children_are_protected
    (children : list RouteRecord) (child : RouteRecord)
    (p : string) (from : RouteLocation) (w : World) :
  In (record_layout, children) routes →
  In child children →
  let to := location_of p [record_layout; child] in
  requiresAuth (meta to) = Some true
  ∧ (truthy (getItem "token" w) = false →
       beforeEach to from w = next_name "login")
  ∧ (truthy (getItem "token" w) = true → p ≠ "/login" →
       beforeEach to from w = next).
Proof.
  intros Hentry Hchild to.
  assert (Hmeta : requiresAuth (meta to) = Some true).
  { simpl in Hentry.
    destruct Hentry as [H|[H|[H|[]]]]; try discriminate H.
    injection H as <-.
    destruct Hchild as [<-|[<-|[<-|[]]]]; reflexivity. }
  split; [exact Hmeta|].
  unfold beforeEach. rewrite Hmeta. simpl.
  split.
  - intros ->. reflexivity.
  - intros -> Hp. simpl.
    destruct (String.eqb_spec p "/login"); [contradiction|reflexivity].
Qed.

Lemma layout_children_are_protected_witness :
  In (record_layout, [record_dashboard; record_users; record_user_detail])
    routes
  ∧ In record_user_detail [record_dashboard; record_users; record_user_detail]
  ∧ truthy (getItem "token" empty_world) = false
  ∧ beforeEach (location_of "/users/7" [record_layout; record_user_detail])
      route_login empty_world
    = next_name "login".
Proof.
  assert (H1 : In (record_layout,
                   [record_dashboard; record_users; record_user_detail])
                 routes) by (right; left; reflexivity).
  assert (H2 : In record_user_detail
                 [record_dashboard; record_users; record_user_detail])
    by (right; right; left; reflexivity).
  split; [exact H1|]. split; [exact H2|]. split; [reflexivity|].
  destruct (layout_children_are_protected _ _ "/users/7" route_login
              empty_world H1 H2) as (_ & H & _).
  apply H. reflexivity.
Defined.

(** ** The breadcrumb *)

Lemma or_else_nonempty (a b : string) : b ≠ "" → or_else a b ≠ "".
Proof.
  intros Hb. unfold or_else.
  destruct (String.eqb_spec a ""); [exact Hb|assumption].
Qed.

Lemma breadcrumb_title_nonempty (record : RouteRecord) :
  breadcrumb_title record ≠ "".
Proof.
  unfold breadcrumb_title.
  repeat (destruct (String.eqb _ _); [discriminate|]).
  apply or_else_nonempty, or_else_nonempty. discriminate.
Qed.

(** The loop of [breadcrumbItems], one record at a time. *)
Lemma breadcrumbItems_cons (record : RouteRecord) (matched : list RouteRecord) :
  breadcrumbItems (record :: matched) =
  (if String.eqb (record_path record) "/" then []
   else [{| item_path := record_path record;
            item_title := breadcrumb_title record |}])
  ++ breadcrumbItems matched.
Proof.
  unfold breadcrumbItems.
  set (step := λ (items : list BreadcrumbItem) (r : RouteRecord),
         if String.eqb (record_path r) "/" then items
         else items ++ [{| item_path := record_path r;
                           item_title := breadcrumb_title r |}]).
  assert (Hacc : ∀ l acc, fold_left step l acc = acc ++ fold_left step l []).
  { induction l as [|r l IH]; intros acc; simpl.
    - rewrite app_nil_r. reflexivity.
    - rewrite (IH (step acc r)), (IH (step [] r)). unfold step.
      destruct (String.eqb (record_path r) "/"); simpl;
        [reflexivity|rewrite <- app_assoc; reflexivity]. }
  simpl. rewrite Hacc. unfold step.
  destruct (String.eqb (record_path record) "/"); reflexivity.
Qed.

(** X8. The breadcrumb lists the matched records in their order, leaving out
    exactly those whose path is the root, and no entry has an empty
    title. *)
Theorem breadcrumbItems_skips_root_and_titles_all
    (matched : list RouteRecord) :
  item_path <$> breadcrumbItems matched
  = filter (λ p, p ≠ "/") (record_path <$> matched)
  ∧ Forall (λ item, item_title item ≠ "" ∧ item_path item ≠ "/")
      (breadcrumbItems matched).
Proof.
  induction matched as [|record matched [IHp IHt]].
  - split; [reflexivity|constructor].
  - rewrite breadcrumbItems_cons, fmap_app, fmap_cons, filter_cons.
    destruct (String.eqb_spec (record_path record) "/") as [E|NE].
    + split.
      * rewrite decide_False by (intros H; apply H; exact E). exact IHp.
      * exact IHt.
    + split.
      * rewrite decide_True by exact NE. simpl. rewrite IHp. reflexivity.
      * simpl. constructor; [|exact IHt].
        split; [apply breadcrumb_title_nonempty|exact NE].
Qed.

(** The breadcrumb of the user page. *)
Example breadcrumb_of_user_detail :
  breadcrumbItems [record_layout; record_user_detail]
  = [{| item_path := "/users/:id"; item_title := "用户详情" |}].
Proof. reflexivity. Qed.

(** ** The form validators *)

Lemma truthy_Some (s : string) : truthy (Some s) = true ↔ s ≠ "".
Proof.
  simpl. destruct (String.eqb_spec s ""); split; intros H;
    first [discriminate | contradiction | reflexivity | assumption].
Qed.

Lemma truthy_length (js_length : string → nat) (v : option string) :
  js_length "" = 0%nat →
  (0 < js_length (default "" v))%nat → truthy v = true.
Proof.
  intros H0 Hlen. destruct v as [s|]; simpl in *; [|lia].
  destruct (String.eqb_spec s "") as [->|]; [lia|reflexivity].
Qed.

(** Take the tests of a validator one at a time. *)
Ltac validator_tests :=
  repeat (first
    [ match goal with
      | |- context [truthy ?v] =>
          let E := fresh "E" in destruct (truthy v) eqn:E
      end
    | match goal with
      | |- context [(?a <? ?b)%nat] => destruct (Nat.ltb_spec a b)
      end ];
    cbn [negb orb andb]).

Section Validators.

Context (js_length : string → nat).
Hypothesis js_length_empty : js_length "" = 0%nat.

Lemma blank_has_no_length (v : option string) :
  truthy v = false → js_length (default "" v) = 0%nat.
Proof using js_length_empty.
  destruct v as [s|]; simpl; [|intros _; exact js_length_empty].
  destruct (String.eqb_spec s "") as [->|]; [|discriminate].
  intros _. exact js_length_empty.
Qed.

(** X9. [validateCreateForm] accepts a form exactly when the user name has 3
    to 20 characters, the name 2 to 20 and the password at least 6; it
    then shows nothing, and otherwise shows one warning. *)
Theorem validateCreateForm_accepts_iff (form : UserForm) (p : Page) :
  let u := js_length (form_username form) in
  let n := js_length (form_name form) in
  let pw := js_length (default "" (form_password form)) in
  let within := (3 <= u <= 20 ∧ 2 <= n <= 20 ∧ 6 <= pw)%nat in
  (within → validateCreateForm js_length form p = (Fulfilled true, p))
  ∧ (¬ within →
     ∃ text, validateCreateForm js_length form p
             = (Fulfilled false, warned text p)).
Proof using js_length_empty.
  intros u n pw within.
  pose proof (blank_has_no_length (Some (form_username form))) as Bu.
  pose proof (blank_has_no_length (Some (form_name form))) as Bn.
  pose proof (blank_has_no_length (form_password form)) as Bp.
  simpl default in Bu, Bn. fold u in Bu. fold n in Bn. fold pw in Bp.
  unfold validateCreateForm. fold u n pw. unfold within.
  split; intros Hw; validator_tests;
    try (specialize (Bu eq_refl)); try (specialize (Bn eq_refl));
    try (specialize (Bp eq_refl));
    first [ lia
          | reflexivity
          | eexists; reflexivity
          | exfalso; apply Hw; lia ].
Qed.

(** X10. [validateEditForm] asks the same of the user name and the name, and
    asks 6 characters of the password only when one is given. *)
Theorem validateEditForm_accepts_iff (form : UserForm) (p : Page) :
  let u := js_length (form_username form) in
  let n := js_length (form_name form) in
  let pw := js_length (default "" (form_password form)) in
  let within :=
    (3 <= u <= 20)%nat ∧ (2 <= n <= 20)%nat
    ∧ (truthy (form_password form) = false ∨ (6 <= pw)%nat) in
  (within → validateEditForm js_length form p = (Fulfilled true, p))
  ∧ (¬ within →
     ∃ text, validateEditForm js_length form p
             = (Fulfilled false, warned text p)).
Proof using js_length_empty.
  intros u n pw within.
  pose proof (blank_has_no_length (Some (form_username form))) as Bu.
  pose proof (blank_has_no_length (Some (form_name form))) as Bn.
  pose proof (blank_has_no_length (form_password form)) as Bp.
  simpl default in Bu, Bn. fold u in Bu. fold n in Bn. fold pw in Bp.
  unfold validateEditForm. fold u n pw. unfold within.
  split; intros Hw; validator_tests;
    try (specialize (Bu eq_refl)); try (specialize (Bn eq_refl));
    try (specialize (Bp eq_refl));
    first [ lia
          | reflexivity
          | eexists; reflexivity
          | destruct Hw as (? & ? & [?|?]); first [congruence | lia]
          | exfalso; apply Hw; repeat split; first [lia | tauto] ].
Qed.

End Validators.

Lemma validateCreateForm_accepts_iff_witness :
  let good := {| form_username := "alice"; form_password := Some "secret1";
                 form_name := "Al"; form_status := true;
                 form_description := None |} in
  let short := {| form_username := "al"; form_password := Some "secret1";
                  form_name := "Al"; form_status := true;
                  form_description := None |} in
  String.length "" = 0%nat
  ∧ validateCreateForm String.length good (page_of empty_world)
    = (Fulfilled true, page_of empty_world)
  ∧ ∃ text, validateCreateForm String.length short (page_of empty_world)
            = (Fulfilled false, warned text (page_of empty_world)).
Proof.
  intros good short. split; [reflexivity|]. split.
  - apply (validateCreateForm_accepts_iff String.length eq_refl good
             (page_of empty_world)).
    simpl. lia.
  - apply (validateCreateForm_accepts_iff String.length eq_refl short
             (page_of empty_world)).
    simpl. lia.
Defined.

Lemma validateEditForm_accepts_iff_witness :
  let kept := {| form_username := "alice"; form_password := Some "";
                 form_name := "Al"; form_status := true;
                 form_description := None |} in
  let weak := {| form_username := "alice"; form_password := Some "abc";
                 form_name := "Al"; form_status := true;
                 form_description := None |} in
  String.length "" = 0%nat
  ∧ validateEditForm String.length kept (page_of empty_world)
    = (Fulfilled true, page_of empty_world)
  ∧ ∃ text, validateEditForm String.length weak (page_of empty_world)
            = (Fulfilled false, warned text (page_of empty_world)).
Proof.
  intros kept weak. split; [reflexivity|]. split.
  - apply (validateEditForm_accepts_iff String.length eq_refl kept
             (page_of empty_world)).
    simpl. split; [lia|]. split; [lia|]. left. reflexivity.
  - apply (validateEditForm_accepts_iff String.length eq_refl weak
             (page_of empty_world)).
    simpl. intros (_ & _ & [H|H]); [discriminate H|lia].
Defined.

(** X11. The three validators are ordered: a form the user page accepts for
    creation is accepted by its edit dialog and by the create dialog of
    [Add.vue], neither of which shows a warning for it. *)
Theorem create_form_passes_the_other_validators
    (js_length : string → nat) (form : UserForm) (p : Page) :
  (validateCreateForm js_length form p).1 = Fulfilled true →
  validateEditForm js_length form p = (Fulfilled true, p)
  ∧ add_validateForm form p = (Fulfilled true, p).
Proof.
  unfold validateCreateForm, validateEditForm, add_validateForm.
  validator_tests; intros Hok; try discriminate Hok; try lia;
    split; reflexivity.
Qed.

Lemma create_form_passes_the_other_validators_witness :
  let good := {| form_username := "alice"; form_password := Some "secret1";
                 form_name := "Al"; form_status := true;
                 form_description := None |} in
  (validateCreateForm String.length good (page_of empty_world)).1
  = Fulfilled true
  ∧ validateEditForm String.length good (page_of empty_world)
    = (Fulfilled true, page_of empty_world)
  ∧ add_validateForm good (page_of empty_world)
    = (Fulfilled true, page_of empty_world).
Proof.
  intros good. split; [reflexivity|].
  apply (create_form_passes_the_other_validators String.length good
           (page_of empty_world)).
  reflexivity.
Defined.

(** The other way round fails: [Add.vue] lets a one-letter user name and
    a short password through. *)
Example add_validateForm_is_weaker :
  let form := {| form_username := "a"; form_password := Some "1";
                 form_name := "b"; form_status := true;
                 form_description := None |} in
  add_validateForm form (page_of empty_world)
  = (Fulfilled true, page_of empty_world)
  ∧ (validateCreateForm String.length form (page_of empty_world)).1
    = Fulfilled false.
Proof. split; reflexivity. Qed.

(** ** The handlers of the views *)

(** The shape the handlers share: an API call, then a success toast and a
    push, or else an error toast and a line on the console. *)
Lemma call_then_toast_run {A} (m : IO A)
    (done target failed_text label : string) (p : Page) :
  view_try_catch
    (view_bind (lift m) (λ _,
       view_bind (ElMessage ToastSuccess done) (λ _, router_push target)))
    (λ error,
       view_bind (ElMessage ToastError failed_text) (λ _,
         lift (console_error label (message error)))) p
  = match m (world p) with
    | (Fulfilled _, w') =>
        (Fulfilled tt,
         {| world := w'; toasts := toasts p ++ [(ToastSuccess, done)];
            pushes := pushes p ++ [target]; loading := loading p |})
    | (Rejected e, w') =>
        (Fulfilled tt,
         {| world := (console_error label (message e) w').2;
            toasts := toasts p ++ [(ToastError, failed_text)];
            pushes := pushes p; loading := loading p |})
    end.
Proof.
  unfold view_try_catch, view_bind, lift.
  destruct (m (world p)) as [[a|e] w']; reflexivity.
Qed.

Section LoginView.

Context (env : option string).
Context (transport : InternalConfig → Outcome (option LoginResponse)).

(** X12. With the user name or the password blank, the login form shows one
    warning and does nothing else: no request leaves, nothing is
    stored, [loading] is not touched. *)
Theorem login_handleSubmit_blank_sends_nothing
    (form : LoginRequest) (p : Page) :
  username form = "" ∨ password form = "" →
  login_handleSubmit env transport form p
  = (Fulfilled tt, warned "请输入用户名和密码" p).
Proof.
  intros Hblank. unfold login_handleSubmit.
  destruct Hblank as [-> | ->]; [reflexivity|].
  simpl. rewrite orb_true_r. reflexivity.
Qed.

(** The login handler with both fields filled in, step by step. *)
Lemma login_handleSubmit_run (form : LoginRequest) (p : Page) :
  username form ≠ "" → password form ≠ "" →
  ∃ p',
    login_handleSubmit env transport form p = (Fulfilled tt, p')
    ∧ loading p' = false
    ∧ match login env transport form (world p) with
      | (Fulfilled _, w') =>
          world p' = w'
          ∧ toasts p' = toasts p ++ [(ToastSuccess, "登录成功")]
          ∧ pushes p' = pushes p ++ ["/dashboard"]
      | (Rejected e, w') =>
          world p' = (console_error "Login error:" (message e) w').2
          ∧ toasts p' = toasts p
                        ++ [(ToastError, "登录失败，请检查用户名和密码")]
          ∧ pushes p' = pushes p
      end.
Proof.
  intros Hu Hp. unfold login_handleSubmit.
  apply truthy_Some in Hu. apply truthy_Some in Hp. rewrite Hu, Hp.
  cbn [negb orb].
  unfold view_bind at 1. cbn [set_loading]. unfold view_try_finally.
  rewrite call_then_toast_run. cbn [world toasts pushes loading].
  destruct (login env transport form (world p)) as [[v|e] w'];
    eexists; (split; [reflexivity|]); repeat split.
Qed.

(** X13. With both filled in, the handler never rejects and always ends with
    [loading] off.  It shows exactly one toast: success, with a push to
    [/dashboard], when [login] fulfils; failure, with no push and the
    error on the console, when [login] rejects. *)
Theorem login_handleSubmit_settles (form : LoginRequest) (p : Page) :
  username form ≠ "" → password form ≠ "" →
  ∃ p',
    login_handleSubmit env transport form p = (Fulfilled tt, p')
    ∧ loading p' = false
    ∧ match login env transport form (world p) with
      | (Fulfilled _, w') =>
          world p' = w'
          ∧ toasts p' = toasts p ++ [(ToastSuccess, "登录成功")]
          ∧ pushes p' = pushes p ++ ["/dashboard"]
      | (Rejected e, w') =>
          world p' = (console_error "Login error:" (message e) w').2
          ∧ toasts p' = toasts p
                        ++ [(ToastError, "登录失败，请检查用户名和密码")]
          ∧ pushes p' = pushes p
      end.
Proof. apply login_handleSubmit_run. Qed.

(** X14. A login answered with a token leads where it says: the token is
    stored, the handler pushes [/dashboard], and the guard lets that
    navigation through. *)
Theorem login_then_dashboard_is_admitted
    (form : LoginRequest) (p : Page) (from : RouteLocation)
    (r : AxiosResponse (option LoginResponse)) (payload : LoginResponse)
    (token : string) :
  username form ≠ "" → password form ≠ "" →
  transport (outgoing env (login_call form) (world p)) = Responded r →
  200 <= status r < 300 →
  data (body r) = Some payload →
  access_token payload = Some token → token ≠ "" →
  ∃ p',
    login_handleSubmit env transport form p = (Fulfilled tt, p')
    ∧ getItem "token" (world p') = Some token
    ∧ pushes p' = pushes p ++ ["/dashboard"]
    ∧ beforeEach route_dashboard from (world p') = next.
Proof.
  intros Hu Hp Ho Hs Hd Ha Ht.
  destruct (login_handleSubmit_run form p Hu Hp) as (p' & Hrun & _ & Hcase).
  exists p'. split; [exact Hrun|].
  rewrite login_run in Hcase.
  apply validateStatus_2xx in Hs.
  rewrite (apiClient_fulfilled env transport (login_call form) (world p) r Ho Hs)
    in Hcase.
  rewrite Hd, Ha in Hcase.
  assert (Htruthy : truthy (Some token) = true) by (apply truthy_Some; exact Ht).
  rewrite Htruthy in Hcase. destruct Hcase as (Hw & _ & Hpush).
  assert (Hg : getItem "token" (world p') = Some token).
  { rewrite Hw. unfold getItem. simpl. apply lookup_insert_eq. }
  split; [exact Hg|]. split; [exact Hpush|].
  unfold beforeEach. rewrite Hg, Htruthy. reflexivity.
Qed.

(** X15. A login answered without a token, with none stored before, is still
    reported as a success and still pushes [/dashboard]; the guard then
    sends that navigation back to [login]. *)
Theorem login_without_token_bounces
    (form : LoginRequest) (p : Page) (from : RouteLocation)
    (r : AxiosResponse (option LoginResponse)) :
  username form ≠ "" → password form ≠ "" →
  transport (outgoing env (login_call form) (world p)) = Responded r →
  200 <= status r < 300 →
  (∀ payload, data (body r) = Some payload →
     truthy (access_token payload) = false) →
  truthy (getItem "token" (world p)) = false →
  ∃ p',
    login_handleSubmit env transport form p = (Fulfilled tt, p')
    ∧ toasts p' = toasts p ++ [(ToastSuccess, "登录成功")]
    ∧ pushes p' = pushes p ++ ["/dashboard"]
    ∧ beforeEach route_dashboard from (world p') = next_name "login".
Proof.
  intros Hu Hp Ho Hs Hpayload Hnone.
  destruct (login_handleSubmit_run form p Hu Hp) as (p' & Hrun & _ & Hcase).
  exists p'. split; [exact Hrun|].
  rewrite login_run in Hcase.
  apply validateStatus_2xx in Hs.
  rewrite (apiClient_fulfilled env transport (login_call form) (world p) r Ho Hs)
    in Hcase.
  assert (Hcase' :
    world p' = transmit (outgoing env (login_call form) (world p)) (world p)
    ∧ toasts p' = toasts p ++ [(ToastSuccess, "登录成功")]
    ∧ pushes p' = pushes p ++ ["/dashboard"]).
  { destruct (data (body r)) as [payload|] eqn:Hd; [|exact Hcase].
    rewrite (Hpayload payload eq_refl) in Hcase. exact Hcase. }
  destruct Hcase' as (Hw & Htoast & Hpush).
  split; [exact Htoast|]. split; [exact Hpush|].
  unfold beforeEach. rewrite Hw.
  change (getItem "token" (transmit _ (world p)))
    with (getItem "token" (world p)).
  rewrite Hnone. reflexivity.
Qed.

End LoginView.

Lemma login_handleSubmit_blank_sends_nothing_witness :
  let form := {| username := "admin"; password := "" |} in
  (username form = "" ∨ password form = "")
  ∧ login_handleSubmit None (λ _, NoResponse "Network Error") form
      (page_of empty_world)
    = (Fulfilled tt, warned "请输入用户名和密码" (page_of empty_world)).
Proof.
  intros form. split; [right; reflexivity|].
  apply (login_handleSubmit_blank_sends_nothing None
           (λ _, NoResponse "Network Error") form (page_of empty_world)).
  right. reflexivity.
Defined.

Lemma login_handleSubmit_settles_witness :
  let form := {| username := "admin"; password := "123456" |} in
  username form ≠ "" ∧ password form ≠ ""
  ∧ ∃ p',
      login_handleSubmit None (λ _, NoResponse "Network Error") form
        (page_of empty_world) = (Fulfilled tt, p')
      ∧ loading p' = false
      ∧ toasts p' = [(ToastError, "登录失败，请检查用户名和密码")]
      ∧ pushes p' = [].
Proof.
  intros form. split; [discriminate|]. split; [discriminate|].
  destruct (login_handleSubmit_settles None (λ _, NoResponse "Network Error")
              form (page_of empty_world))
    as (p' & Hrun & Hl & _ & Ht & Hp); [discriminate|discriminate|].
  exists p'. repeat split; assumption.
Defined.

Lemma login_then_dashboard_is_admitted_witness :
  let form := {| username := "admin"; password := "123456" |} in
  let payload := {| access_token := Some "tok1"; token_type := "bearer";
                    expires_in := 3600 |} in
  let b := {| code := 0; msg := "ok"; data := Some payload |} in
  username form ≠ "" ∧ password form ≠ ""
  ∧ answer 200 b (outgoing None (login_call form) empty_world)
    = Responded {| status := 200; body := b |}
  ∧ 200 <= 200 < 300
  ∧ "tok1" ≠ ""
  ∧ ∃ p',
      login_handleSubmit None (answer 200 b) form (page_of empty_world)
      = (Fulfilled tt, p')
      ∧ getItem "token" (world p') = Some "tok1"
      ∧ pushes p' = ["/dashboard"]
      ∧ beforeEach route_dashboard route_login (world p') = next.
Proof.
  intros form payload b.
  split; [discriminate|]. split; [discriminate|]. split; [reflexivity|].
  split; [lia|]. split; [discriminate|].
  apply (login_then_dashboard_is_admitted None (answer 200 b) form
           (page_of empty_world) route_login
           {| status := 200; body := b |} payload "tok1");
    first [discriminate | reflexivity | simpl; lia].
Defined.

Lemma login_without_token_bounces_witness :
  let form := {| username := "admin"; password := "123456" |} in
  let b : BaseResponse (option LoginResponse) :=
    {| code := 0; msg := "ok"; data := None |} in
  username form ≠ "" ∧ password form ≠ ""
  ∧ answer 200 b (outgoing None (login_call form) empty_world)
    = Responded {| status := 200; body := b |}
  ∧ 200 <= 200 < 300
  ∧ truthy (getItem "token" empty_world) = false
  ∧ ∃ p',
      login_handleSubmit None (answer 200 b) form (page_of empty_world)
      = (Fulfilled tt, p')
      ∧ toasts p' = [(ToastSuccess, "登录成功")]
      ∧ pushes p' = ["/dashboard"]
      ∧ beforeEach route_dashboard route_login (world p') = next_name "login".
Proof.
  intros form b.
  split; [discriminate|]. split; [discriminate|]. split; [reflexivity|].
  split; [lia|]. split; [reflexivity|].
  apply (login_without_token_bounces None (answer 200 b) form
           (page_of empty_world) route_login {| status := 200; body := b |});
    first [discriminate | reflexivity | simpl; lia].
Defined.

(** *** The header *)

Lemma logout_run (env : option string) {T : Type}
    (transport : InternalConfig → Outcome T) (w : World) :
  logout env transport w
  = ((apiClient env T transport (Post "/logout" Undefined None) w).1,
     (removeItem "token"
        (apiClient env T transport (Post "/logout" Undefined None) w).2).2).
Proof.
  unfold logout, try_finally, bind. rewrite apiClient_post_call.
  destruct (apiClient env T transport (Post "/logout" Undefined None) w)
    as [[v|e] w']; reflexivity.
Qed.

(** X16. [handleLogout] never rejects and always leaves the token removed.
    When the call to [/logout] fulfils it shows the success toast and
    pushes [/login]; when the call rejects it shows the failure toast and
    pushes nothing, although the token is gone by then. *)
Theorem handleLogout_always_signs_out
    (env : option string) (T : Type) (transport : InternalConfig → Outcome T)
    (p : Page) :
  ∃ p',
    handleLogout env transport p = (Fulfilled tt, p')
    ∧ getItem "token" (world p') = None
    ∧ match (apiClient env T transport (Post "/logout" Undefined None)
               (world p)).1 with
      | Fulfilled _ =>
          toasts p' = toasts p ++ [(ToastSuccess, "退出登录成功")]
          ∧ pushes p' = pushes p ++ ["/login"]
      | Rejected _ =>
          toasts p' = toasts p ++ [(ToastError, "退出登录失败")]
          ∧ pushes p' = pushes p
      end.
Proof.
  unfold handleLogout. rewrite call_then_toast_run, logout_run.
  destruct (apiClient env T transport (Post "/logout" Undefined None)
              (world p)) as [[v|e] w'];
    eexists; (split; [reflexivity|]);
    (split; [unfold getItem; simpl; apply lookup_delete_eq|]);
    split; reflexivity.
Qed.

(** [handleLogout] when the server cannot be reached. *)
Example handleLogout_offline :
  let done := handleLogout None (λ _, NoResponse (T := unit) "Network Error")
                (page_of (signed_in "tok1")) in
  getItem "token" (world done.2) = None
  ∧ toasts done.2 = [(ToastError, "退出登录失败")]
  ∧ pushes done.2 = []
  ∧ location_log (world done.2) = [].
Proof. repeat split. Qed.

(** *** The create dialog *)

Section AddDialog.

Context (env : option string) (JSON_stringify : UserForm → string).
Context {T : Type} (transport : InternalConfig → Outcome T).

(** X17. A form with the user name, the name or the password missing never
    reaches the network: the dialog shows one warning and nothing else
    changes. *)
Theorem add_handleSubmit_invalid_sends_nothing (form : UserForm) (p : Page) :
  form_username form = "" ∨ form_name form = ""
  ∨ truthy (form_password form) = false →
  ∃ text,
    add_handleSubmit env JSON_stringify transport form p
    = (Fulfilled tt, warned text p).
Proof.
  intros Hblank. unfold add_handleSubmit, add_validateForm.
  destruct (truthy (Some (form_username form))) eqn:Eu;
    [|eexists; reflexivity].
  destruct (truthy (Some (form_name form))) eqn:En;
    [|eexists; reflexivity].
  destruct (truthy (form_password form)) eqn:Ep;
    [|eexists; reflexivity].
  apply truthy_Some in Eu. apply truthy_Some in En.
  destruct Hblank as [H|[H|H]]; first [contradiction | discriminate].
Qed.

(** X18. With the three fields filled in, the dialog never rejects and ends
    with [loading] off; it shows the success toast and pushes [/users]
    when [createUser] fulfils, and the failure toast with no push when it
    rejects. *)
Theorem add_handleSubmit_settles (form : UserForm) (p : Page) :
  form_username form ≠ "" → form_name form ≠ "" →
  truthy (form_password form) = true →
  ∃ p',
    add_handleSubmit env JSON_stringify transport form p = (Fulfilled tt, p')
    ∧ loading p' = false
    ∧ match createUser env T transport JSON_stringify form (world p) with
      | (Fulfilled _, w') =>
          world p' = w'
          ∧ toasts p' = toasts p ++ [(ToastSuccess, "用户创建成功")]
          ∧ pushes p' = pushes p ++ ["/users"]
      | (Rejected e, w') =>
          world p' = (console_error "Create user error:" (message e) w').2
          ∧ toasts p' = toasts p ++ [(ToastError, "创建用户失败")]
          ∧ pushes p' = pushes p
      end.
Proof.
  intros Hu Hn Hp. unfold add_handleSubmit, add_validateForm.
  apply truthy_Some in Hu. apply truthy_Some in Hn. rewrite Hu, Hn, Hp.
  cbn [negb]. unfold view_bind at 1. cbn [view_ret negb].
  unfold view_bind at 1. cbn [set_loading]. unfold view_try_finally.
  rewrite call_then_toast_run. cbn [world toasts pushes loading].
  destruct (createUser env T transport JSON_stringify form (world p))
    as [[v|e] w'];
    eexists; (split; [reflexivity|]); repeat split.
Qed.

End AddDialog.

Lemma add_handleSubmit_invalid_sends_nothing_witness :
  let form := {| form_username := "alice"; form_password := None;
                 form_name := "Al"; form_status := true;
                 form_description := None |} in
  (form_username form = "" ∨ form_name form = ""
   ∨ truthy (form_password form) = false)
  ∧ ∃ text,
      add_handleSubmit None (λ _, "{}")
        (λ _, NoResponse (T := unit) "Network Error") form
        (page_of empty_world)
      = (Fulfilled tt, warned text (page_of empty_world)).
Proof.
  intros form. split; [right; right; reflexivity|].
  apply (add_handleSubmit_invalid_sends_nothing None (λ _, "{}")
           (λ _, NoResponse (T := unit) "Network Error") form
           (page_of empty_world)).
  right; right; reflexivity.
Defined.

Lemma add_handleSubmit_settles_witness :
  let form := {| form_username := "alice"; form_password := Some "secret1";
                 form_name := "Al"; form_status := true;
                 form_description := None |} in
  let b : BaseResponse unit := {| code := 0; msg := "ok"; data := tt |} in
  form_username form ≠ "" ∧ form_name form ≠ ""
  ∧ truthy (form_password form) = true
  ∧ ∃ p',
      add_handleSubmit None (λ _, "{}") (answer 200 b) form
        (page_of (signed_in "tok1")) = (Fulfilled tt, p')
      ∧ loading p' = false
      ∧ toasts p' = [(ToastSuccess, "用户创建成功")]
      ∧ pushes p' = ["/users"].
Proof.
  intros form b. split; [discriminate|]. split; [discriminate|].
  split; [reflexivity|].
  destruct (add_handleSubmit_settles None (λ _, "{}") (answer 200 b) form
              (page_of (signed_in "tok1")))
    as (p' & Hrun & Hl & _ & Ht & Hp);
    [discriminate|discriminate|reflexivity|].
  exists p'. repeat split; assumption.
Defined.

(** ** How the operations compose *)

Section Composition.

Context (env : option string).

(** X19. What the client raises is what it logs, when it can read the
    answer: a call rejected on an answer that carries an envelope, on no
    answer, or before dispatch has added exactly one line to the console,
    "API Error:" with the text of the error raised.  A call rejected on an
    answer whose body is [null] has added none (the handler throws before
    it logs), and neither has a fulfilled call. *)
Theorem failure_is_logged_once {T : Type}
    (transport : InternalConfig → Outcome T) (c : Call) (w : World) :
  match apiClient env T transport c w with
  | (Rejected e, w') =>
      console w'
      = console w
        ++ (if null_body (transport (outgoing env c w)) then []
            else ["API Error: " +:+ message e])
  | (Fulfilled _, w') => console w' = console w
  end.
Proof.
  destruct (failed (transport (outgoing env c w))) eqn:Hf.
  - rewrite (apiClient_rejected env transport c w Hf).
    unfold raised, handled. rewrite throws_error_of.
    destruct (transport (outgoing env c w)); simpl;
      rewrite ?app_nil_r; reflexivity.
  - destruct (transport (outgoing env c w)) as [r| | |] eqn:Ho;
      try discriminate Hf.
    simpl in Hf. apply negb_false_iff in Hf.
    rewrite (apiClient_fulfilled env transport c w r Ho Hf). reflexivity.
Qed.

(** X20. Once a call has been answered 401 with an envelope for a body,
    the next request of any verb goes out as the caller wrote it, with no
    token attached by the client. *)
Theorem request_after_401_is_anonymous {T : Type}
    (transport : InternalConfig → Outcome T) (c : Call) (w : World)
    (b : BaseResponse T) (next_call : Call) :
  transport (outgoing env c w) = Responded {| status := 401; body := b |} →
  let w' := (apiClient env T transport c w).2 in
  outgoing env next_call w' = call_config env next_call
  ∧ cfg_headers (outgoing env next_call w') !! "Authorization"
    = caller_Authorization next_call.
Proof.
  intros Ho w'.
  pose proof (apiClient_rejected env transport c w) as Hrun.
  rewrite Ho in Hrun. specialize (Hrun eq_refl).
  assert (Hf : truthy (getItem "token" w') = false).
  { unfold w'. rewrite Hrun. unfold getItem. cbn [snd].
    destruct (handled_session
                (error_of (Responded {| status := 401; body := b |}))
                (dispatched (Responded {| status := 401; body := b |})
                   (outgoing env c w) w)) as [H1 _].
    rewrite H1. cbn. rewrite lookup_delete_eq. reflexivity. }
  rewrite (outgoing_without_token env next_call w' Hf).
  split; [reflexivity|apply call_config_Authorization].
Qed.

(** X21. After a login answered with a token, every request of every verb
    carries that token as its bearer. *)
Theorem request_after_login_carries_token
    (transport : InternalConfig → Outcome (option LoginResponse))
    (form : LoginRequest) (w : World)
    (r : AxiosResponse (option LoginResponse)) (payload : LoginResponse)
    (token : string) (next_call : Call) :
  transport (outgoing env (login_call form) w) = Responded r →
  200 <= status r < 300 →
  data (body r) = Some payload →
  access_token payload = Some token → token ≠ "" →
  let w' := (login env transport form w).2 in
  getItem "token" w' = Some token
  ∧ cfg_headers (outgoing env next_call w') !! "Authorization"
    = Some ("Bearer " +:+ token).
Proof.
  intros Ho Hs Hd Ha Ht w'. apply validateStatus_2xx in Hs.
  assert (Hg : getItem "token" w' = Some token).
  { unfold w'. rewrite login_run.
    rewrite (apiClient_fulfilled env transport (login_call form) w r Ho Hs).
    rewrite Hd, Ha.
    assert (Htruthy : truthy (Some token) = true)
      by (apply truthy_Some; exact Ht).
    rewrite Htruthy. unfold getItem. simpl. apply lookup_insert_eq. }
  split; [exact Hg|].
  rewrite (outgoing_with_token env next_call w' token Hg Ht). simpl.
  apply lookup_insert_eq.
Qed.

(** X22. After [logout], however its call went, the guard sends every target
    that requires a session to [login] and lets [/login] itself
    through. *)
Theorem guard_after_logout {T : Type}
    (transport : InternalConfig → Outcome T) (w : World)
    (to from : RouteLocation) :
  let w' := (logout env transport w).2 in
  (truthy_flag (requiresAuth (meta to)) = true →
     beforeEach to from w' = next_name "login")
  ∧ beforeEach route_login from w' = next.
Proof.
  intros w'.
  assert (Hg : getItem "token" w' = None).
  { unfold w'. rewrite logout_run. unfold getItem. simpl.
    apply lookup_delete_eq. }
  unfold beforeEach. rewrite Hg. simpl.
  split; [intros ->; reflexivity|reflexivity].
Qed.

End Composition.

Lemma request_after_401_is_anonymous_witness :
  let b : BaseResponse unit := {| code := 401; msg := ""; data := tt |} in
  let w := signed_in "tok1" in
  answer 401 b (outgoing None (Get "/users" None) w)
  = Responded {| status := 401; body := b |}
  ∧ cfg_headers (outgoing None (Get "/users" None) w) !! "Authorization"
    = Some "Bearer tok1"
  ∧ cfg_headers
      (outgoing None (Get "/users" None)
         (apiClient None unit (answer 401 b) (Get "/users" None) w).2)
      !! "Authorization" = None.
Proof.
  intros b w. split; [reflexivity|]. split; [reflexivity|].
  destruct (request_after_401_is_anonymous None (answer 401 b)
              (Get "/users" None) w b (Get "/users" None) eq_refl)
    as [_ H].
  rewrite H. reflexivity.
Defined.

Lemma request_after_login_carries_token_witness :
  let form := {| username := "admin"; password := "123456" |} in
  let payload := {| access_token := Some "tok1"; token_type := "bearer";
                    expires_in := 3600 |} in
  let b := {| code := 0; msg := "ok"; data := Some payload |} in
  answer 200 b (outgoing None (login_call form) empty_world)
  = Responded {| status := 200; body := b |}
  ∧ 200 <= 200 < 300
  ∧ "tok1" ≠ ""
  ∧ getItem "token" (login None (answer 200 b) form empty_world).2
    = Some "tok1"
  ∧ cfg_headers
      (outgoing None (Delete "/user/7" None)
         (login None (answer 200 b) form empty_world).2)
      !! "Authorization" = Some "Bearer tok1".
Proof.
  intros form payload b.
  split; [reflexivity|]. split; [lia|]. split; [discriminate|].
  apply (request_after_login_carries_token None (answer 200 b) form
           empty_world {| status := 200; body := b |} payload "tok1"
           (Delete "/user/7" None));
    first [discriminate | reflexivity | simpl; lia].
Defined.

Lemma guard_after_logout_witness :
  truthy_flag (requiresAuth (meta route_users)) = true
  ∧ beforeEach route_users route_dashboard
      (logout None (answer 200 {| code := 0; msg := "ok"; data := tt |})
         (signed_in "tok1")).2
    = next_name "login".
Proof.
  split; [reflexivity|].
  destruct (guard_after_logout None
              (answer 200 {| code := 0; msg := "ok"; data := tt |})
              (signed_in "tok1") route_users route_dashboard) as [H _].
  apply H. reflexivity.
Defined.
